(** * cmd/hello: the handler behind hello.ipn.dev

    A shallow embedding of [cmd/hello/hello.go].  Go strings are byte
    strings and are modelled by [String.string]; Go [int] indices are
    modelled by [Z] (every index below is bounded by a string length, so no
    wrap-around can occur).  Calls into the Go standard library and into
    tailscaled that perform I/O are recorded in a trace of [call]s; what the
    outside world answers is supplied by a [World]. *)

From Stdlib Require Import ZArith Bool List String Ascii DecimalString Lia.
Import ListNotations.

Local Open Scope string_scope.
Local Open Scope Z_scope.

(** ** Go built-ins on strings *)

(** [len(s)] *)
Definition len (s : string) : Z := Z.of_nat (String.length s).

(** [s[lo:hi]]; Go panics unless [0 <= lo <= hi <= len(s)], and every use
    below is within that range. *)
Definition slice (s : string) (lo hi : Z) : string :=
  substring (Z.to_nat lo) (Z.to_nat (hi - lo)) s.

(** [s[i]], [None] where Go would panic. *)
Definition byteAt (s : string) (i : Z) : option ascii :=
  if i <? 0 then None else get (Z.to_nat i) s.

Definition isByte (o : option ascii) (c : ascii) : bool :=
  match o with
  | Some a => Ascii.eqb a c
  | None => false
  end.

(** Membership of a byte in a string, used to state the properties. *)
Fixpoint occurs (c : ascii) (s : string) : Prop :=
  match s with
  | EmptyString => False
  | String a s' => a = c \/ occurs c s'
  end.

(** ** Package [strings] of the Go standard library *)
Module strings.

(** [strings.Index(s, substr)]: the index of the first instance of
    [substr] in [s], or -1. *)
Fixpoint Index (s substr : string) : Z :=
  if prefix substr s then 0
  else match s with
       | EmptyString => -1
       | String _ s' =>
           let r := Index s' substr in
           if r <? 0 then -1 else r + 1
       end.

(** [strings.Contains(s, substr)] is [Index(s, substr) >= 0]. *)
Definition Contains (s substr : string) : bool := 0 <=? Index s substr.

(** [strings.IndexByte(s, c)] (the runtime's [bytealg.IndexByteString]) *)
Fixpoint IndexByte (s : string) (c : ascii) : Z :=
  match s with
  | EmptyString => -1
  | String a s' =>
      if Ascii.eqb a c then 0
      else let r := IndexByte s' c in
           if r <? 0 then -1 else r + 1
  end.

(** [strings.LastIndexByte(s, c)] (the runtime's
    [bytealg.LastIndexByteString]) *)
Fixpoint LastIndexByte (s : string) (c : ascii) : Z :=
  match s with
  | EmptyString => -1
  | String a s' =>
      let r := LastIndexByte s' c in
      if 0 <=? r then r + 1
      else if Ascii.eqb a c then 0 else -1
  end.

End strings.

(** ** [firstLabel] (hello.go, lines 164-170) *)

(** firstLabel s up until the first period, if any. *)
Definition firstLabel (s : string) : string :=
  let i := strings.Index s "." in
  if negb (i =? -1) then slice s 0 i else s.


(** ** Errors and results

    A Go [error] is represented by its message; a Go function returning
    [(T, error)] returns a [result T]. *)

Definition error := string.

Inductive result (A : Type) : Type :=
| Ok (a : A)
| Err (e : error).

Arguments Ok {A} a.
Arguments Err {A} e.

(** ** Package [net] of the Go standard library *)
Module net.

Definition missingPort : string := "missing port in address".
Definition tooManyColons : string := "too many colons in address".

(** [&AddrError{Err: why, Addr: addr}], whose message is
    ["address " + addr + ": " + why]. *)
Definition addrErr (addr why : string) : result (string * string) :=
  Err ("address " ++ addr ++ ": " ++ why).

(** The common tail of [SplitHostPort]: the checks for stray brackets behind
    positions [j] and [k], then the port behind the last colon at [i]. *)
Definition splitTail (hostport host : string) (i j k : Z)
  : result (string * string) :=
  if 0 <=? strings.IndexByte (slice hostport j (len hostport)) "[" then
    addrErr hostport "unexpected '[' in address"
  else if 0 <=? strings.IndexByte (slice hostport k (len hostport)) "]" then
    addrErr hostport "unexpected ']' in address"
  else Ok (host, slice hostport (i + 1) (len hostport)).

(** [net.SplitHostPort], after [net/ipsock.go] of the Go standard library:
    it splits ["host:port"], ["host%zone:port"], ["[host]:port"] or
    ["[host%zone]:port"] into host and port at the last colon. *)
Definition SplitHostPort (hostport : string) : result (string * string) :=
  let i := strings.LastIndexByte hostport ":" in
  if i <? 0 then addrErr hostport missingPort
  else if isByte (byteAt hostport 0) "[" then
    let end_ := strings.IndexByte hostport "]" in
    if end_ <? 0 then addrErr hostport "missing ']' in address"
    else if end_ + 1 =? len hostport then addrErr hostport missingPort
    else if end_ + 1 =? i then
      splitTail hostport (slice hostport 1 end_) i 1 (end_ + 1)
    else if isByte (byteAt hostport (end_ + 1)) ":" then
      addrErr hostport tooManyColons
    else addrErr hostport missingPort
  else
    let host := slice hostport 0 i in
    if 0 <=? strings.IndexByte host ":" then addrErr hostport tooManyColons
    else splitTail hostport host i 0 0.

End net.

(** ** Package [net/http]: the parts of requests and responses that
    [hello.go] reads or writes *)
Module http.

(** [*tls.ConnectionState]; only its being nil or not is observed. *)
Inductive ConnectionState : Type := connectionState.

(** [http.Request].  [Authorization] holds what [SetBasicAuth] stored. *)
Record Request : Type := {
  Method : string;
  URL : string;
  Host : string;
  RequestURI : string;
  RemoteAddr : string;
  TLS : option ConnectionState;
  Authorization : option (string * string)
}.

(** [req.SetBasicAuth(username, password)] *)
Definition SetBasicAuth (req : Request) (username password : string) : Request :=
  {| Method := Method req; URL := URL req; Host := Host req;
     RequestURI := RequestURI req; RemoteAddr := RemoteAddr req;
     TLS := TLS req; Authorization := Some (username, password) |}.

(** [http.Response]; [Body] is what [ioutil.ReadAll(res.Body)] yields. *)
Record Response : Type := {
  Status : string;
  StatusCode : Z;
  Body : string
}.

Definition StatusFound : Z := 302.

End http.

(** ** Package [tailcfg]: its declarations are outside [cmd/hello]; these
    are the fields of [tailcfg.WhoIsResponse] that [root] reads, by plain
    selection ([who.Node.ComputedName]).  A decoded response is taken to
    have both its [Node] and its [UserProfile]. *)
Module tailcfg.

Record userProfile : Type := {
  DisplayName : string;
  LoginName : string;
  ProfilePicURL : string
}.

Record hostinfo : Type := { OS : string }.

Record node : Type := {
  ComputedName : string;
  Hostinfo : hostinfo
}.

Record WhoIsResponse : Type := {
  Node : node;
  UserProfile : userProfile
}.

End tailcfg.

(** ** Package [main] *)

(** The command-line flags (hello.go, lines 28-32). *)
Record Flags : Type := {
  httpAddr : string;
  httpsAddr : string;
  testIP : string
}.

(** [flag] defaults. *)
Definition defaultFlags : Flags :=
  {| httpAddr := ":80"; httpsAddr := ":443"; testIP := "" |}.

(** hello.go, line 87 *)
Definition devMode (f : Flags) : bool :=
  (httpsAddr f =? "")%string && negb (httpAddr f =? "")%string.

(** hello.go, lines 98-105 *)
Record tmplData : Type := {
  DisplayName : string;
  LoginName : string;
  ProfilePicURL : string;
  MachineName : string;
  MachineOS : string;
  IP : string
}.

(** The fake data [root] uses in dev mode (hello.go, lines 137-144). *)
Definition fakeData : tmplData :=
  {| DisplayName := "Taily Scalerson";
     LoginName := "taily@scaler.son";
     ProfilePicURL := "https://placekitten.com/200/200";
     MachineName := "scaled";
     MachineOS := "Linux";
     IP := "100.1.2.3" |}.

(** What lies outside the program: the file system, the template package,
    the local tailscaled and the formatting routines of the standard
    library.  Each field answers the library call it is named after. *)
Class World : Type := {
  (** [*template.Template] *)
  Template : Type;
  (** [ioutil.ReadFile(name)] *)
  ReadFile : string -> result string;
  (** [template.New(name).Parse(text)] *)
  Parse : string -> string -> result Template;
  (** [t.Execute(w, data)]: the bytes written to [w] and the error, if any *)
  ExecuteTemplate : Template -> tmplData -> string * option error;
  (** [url.QueryEscape(s)] *)
  QueryEscape : string -> string;
  (** [http.NewRequestWithContext(ctx, method, url, nil)] *)
  NewRequestWithContext : string -> string -> result http.Request;
  (** [safesocket.LocalTCPPortAndToken()] *)
  LocalTCPPortAndToken : result (Z * string);
  (** [tsSockClient.Do(req)] *)
  ClientDo : http.Request -> result http.Response;
  (** [json.Unmarshal(data, new(tailcfg.WhoIsResponse))] *)
  Unmarshal : string -> result tailcfg.WhoIsResponse;
  (** the verb [%q] of package [fmt] *)
  Quote : string -> string
}.

Section Hello.

Context {W : World}.

(** The calls by which the program acts on its surroundings. *)
Inductive call : Type :=
| CReadFile (name : string)
| CLocalTCPPortAndToken
| CDo (req : http.Request)
| CHeaderSet (key value : string)
| CRedirect (url : string) (code : Z)
| CError (msg : string) (code : Z)
| CExecute (t : Template) (data : tmplData)
| CPrintf (msg : string)
| CFatal (msg : string).

(** A computation makes calls and then either yields a value or, after
    [log.Fatal], has ended the process ([None]). *)
Definition M (A : Type) : Type := (list call * option A)%type.

Definition ret {A} (a : A) : M A := ([], Some a).

Definition bind {A B} (m : M A) (f : A -> M B) : M B :=
  match snd m with
  | None => (fst m, None)
  | Some a => ((fst m ++ fst (f a))%list, snd (f a))
  end.

Definition emit (c : call) : M unit := ([c], Some tt).

Definition trace {A} (m : M A) : list call := fst m.

Definition exited {A} (m : M A) : bool :=
  match snd m with None => true | Some _ => false end.

Notation "x <- m ;; k" := (bind m (fun x => k))
  (at level 61, m at next level, right associativity).
Notation "m ;;; k" := (bind m (fun _ => k))
  (at level 61, right associativity).

(** [log.Fatal(err)]: prints and exits the process. *)
Definition log_Fatal {A} (msg : string) : M A := ([CFatal msg], None).

Definition log_Printf (msg : string) : M unit := emit (CPrintf msg).

(** [http.Redirect(w, r, url, code)] *)
Definition http_Redirect (url : string) (code : Z) : M unit :=
  emit (CRedirect url code).

(** [http.Error(w, msg, code)] *)
Definition http_Error (msg : string) (code : Z) : M unit :=
  emit (CError msg code).

(** [w.Header().Set(key, value)] *)
Definition Header_Set (key value : string) : M unit :=
  emit (CHeaderSet key value).

(** [tmpl.Execute(w, data)], returning its error. *)
Definition Execute (t : Template) (data : tmplData) : M (option error) :=
  emit (CExecute t data) ;;; ret (snd (ExecuteTemplate t data)).

(** The flags as parsed by [main], and the package variable [tmpl] as [main]
    initialised it ("not used in dev mode"). *)
Variable flags : Flags.
Variable tmpl : Template.

(** hello.go, lines 79-85 *)
Definition slurpHTML : M string :=
  emit (CReadFile "hello.tmpl.html") ;;;
  match ReadFile "hello.tmpl.html" with
  | Err err => log_Fatal err
  | Ok slurp => ret slurp
  end.

(** hello.go, lines 89-94 *)
Definition getTmpl : M (result Template) :=
  if devMode flags then
    s <- slurpHTML ;; ret (Parse "home" s)
  else ret (Ok tmpl).

(** hello.go, lines 195-197: the request with the local token, if there is
    one, as its basic-auth password. *)
Definition setLocalAuth (req : http.Request) : http.Request :=
  match LocalTCPPortAndToken with
  | Ok (_, token) => http.SetBasicAuth req "" token
  | Err _ => req
  end.

(** hello.go, lines 189-215 *)
Definition whoIs (ip : string) : M (result tailcfg.WhoIsResponse) :=
  match NewRequestWithContext "GET"
          ("http://local-tailscaled.sock/localapi/v0/whois?ip=" ++ QueryEscape ip) with
  | Err err => ret (Err err)
  | Ok req =>
      emit CLocalTCPPortAndToken ;;;
      let req := setLocalAuth req in
      emit (CDo req) ;;;
      match ClientDo req with
      | Err err => ret (Err err)
      | Ok res =>
          let slurp := http.Body res in
          if negb (http.StatusCode res =? 200) then
            ret (Err ("HTTP " ++ http.Status res ++ ": " ++ slurp))
          else
            match Unmarshal slurp with
            | Err _ =>
                let max := 200 in
                let slurp := if max <? len slurp then slice slurp 0 max else slurp in
                ret (Err ("failed to parse JSON WhoIsResponse from " ++ Quote slurp))
            | Ok r => ret (Ok r)
            end
      end
  end.

(** hello.go, lines 125-161: what [root] does once it has the caller's IP. *)
Definition rootWithIP (ip : string) : M unit :=
  t <- getTmpl ;;
  match t with
  | Err err =>
      Header_Set "Content-Type" "text/plain" ;;;
      http_Error ("template error: " ++ err) 500
  | Ok tmpl =>
      who <- whoIs ip ;;
      data <-
        match who with
        | Err err =>
            if devMode flags then
              log_Printf ("warning: using fake data in dev mode due to whois lookup error: " ++ err) ;;;
              ret (Some fakeData)
            else
              log_Printf ("whois(" ++ Quote ip ++ ") error: " ++ err) ;;;
              http_Error "Your Tailscale works, but we failed to look you up." 500 ;;;
              ret None
        | Ok who =>
            ret (Some
              {| DisplayName := tailcfg.DisplayName (tailcfg.UserProfile who);
                 LoginName := tailcfg.LoginName (tailcfg.UserProfile who);
                 ProfilePicURL := tailcfg.ProfilePicURL (tailcfg.UserProfile who);
                 MachineName := firstLabel (tailcfg.ComputedName (tailcfg.Node who));
                 MachineOS := tailcfg.OS (tailcfg.Hostinfo (tailcfg.Node who));
                 IP := ip |})
        end ;;
      match data with
      | None => ret tt
      | Some data =>
          Header_Set "Content-Type" "text/html; charset=utf-8" ;;;
          Execute tmpl data ;;;
          ret tt
      end
  end.

(** hello.go, lines 107-162 *)
Definition root (r : http.Request) : M unit :=
  if match http.TLS r with None => true | Some _ => false end
     && negb (httpsAddr flags =? "")%string then
    let host := http.Host r in
    let host :=
      if strings.Contains (http.Host r) "100.101.102.103" then "hello.ipn.dev"
      else host in
    http_Redirect ("https://" ++ host) http.StatusFound
  else if negb (http.RequestURI r =? "/")%string then
    http_Redirect "/" http.StatusFound
  else
    match net.SplitHostPort (http.RemoteAddr r) with
    | Err _ => http_Error "no remote addr" 500
    | Ok (ip, _) => rootWithIP ip
    end.

(** The status [net/http] sends for a handler that made these calls and
    returned: that of the first call that writes the header, and 200 when
    the handler writes a body, or nothing at all, without setting one. *)
Fixpoint statusCode (tr : list call) : Z :=
  match tr with
  | [] => 200
  | CRedirect _ code :: _ => code
  | CError _ code :: _ => code
  | CExecute _ _ :: _ => 200
  | _ :: tr' => statusCode tr'
  end.

(** The calls that answer the client. *)
Definition isResponse (c : call) : bool :=
  match c with
  | CRedirect _ _ | CError _ _ | CExecute _ _ => true
  | _ => false
  end.

(** The calls that answer the client with an error or a redirect. *)
Definition isErrorOrRedirect (c : call) : bool :=
  match c with
  | CRedirect _ _ | CError _ _ => true
  | _ => false
  end.

End Hello.

Arguments call {W}.
Arguments M {W} A.

(** ** Notions used to state the properties *)

(** [s] holds none of the bytes [cs]. *)
Definition noneOf (cs : list ascii) (s : string) : Prop :=
  forall c, In c cs -> ~ occurs c s.

(** A well-formed socket address and its host and port: ["host:port"], or
    ["[host]:port"] where the host itself has colons (IPv6 literals). *)
Inductive hostPort : string -> string -> string -> Prop :=
| hostPort_plain host port :
    noneOf [":"; "["; "]"]%char host ->
    noneOf [":"; "["; "]"]%char port ->
    hostPort (host ++ ":" ++ port) host port
| hostPort_bracketed host port :
    noneOf ["["; "]"]%char host ->
    noneOf [":"; "["; "]"]%char port ->
    hostPort ("[" ++ host ++ "]:" ++ port) host port.

(** The request gets past the HTTPS redirect (hello.go, line 108). *)
Definition pastHTTPSRedirect (flags : Flags) (r : http.Request) : Prop :=
  http.TLS r <> None \/ httpsAddr flags = "".

(** The request reaches line 120, where the remote address is split. *)
Definition reachesAddressExtract (flags : Flags) (r : http.Request) : Prop :=
  pastHTTPSRedirect flags r /\ http.RequestURI r = "/".

(** The request reaches line 132 with the caller's address [ip] and the
    template [t]; [tr] holds the calls made on the way. *)
Definition reachesResolve {W : World} (flags : Flags) (tmpl : Template)
    (r : http.Request) (ip : string) (t : Template) (tr : list call) : Prop :=
  reachesAddressExtract flags r /\
  (exists port, net.SplitHostPort (http.RemoteAddr r) = Ok (ip, port)) /\
  getTmpl flags tmpl = (tr, Some (Ok t)).

(** What [root] may send once it has the caller's IP: never a redirect, and
    as errors only the lookup failure and the template error. *)
Definition afterAddressExtract {W : World} (flags : Flags) (c : call) : Prop :=
  match c with
  | CRedirect _ _ => False
  | CError msg code =>
      code = 500 /\
      (msg = "Your Tailscale works, but we failed to look you up." \/
       (devMode flags = true /\ exists s e,
          ReadFile "hello.tmpl.html" = Ok s /\ Parse "home" s = Err e /\
          msg = "template error: " ++ e))
  | _ => True
  end.

(** ** A concrete world for running the handler on examples *)

Definition dquote : string := String (ascii_of_nat 34) "".

Definition quoted (s : string) : string := dquote ++ s ++ dquote.

(** The resolver response of the specification's example, as JSON text and
    as the decoded value. *)
Definition exampleJSON : string :=
  "{" ++ quoted "UserProfile" ++ ":{"
      ++ quoted "DisplayName" ++ ":" ++ quoted "Foo Barberson" ++ ","
      ++ quoted "LoginName" ++ ":" ++ quoted "foo@bar.com" ++ ","
      ++ quoted "ProfilePicURL" ++ ":" ++ quoted "https://x/y.png" ++ "},"
      ++ quoted "Node" ++ ":{"
      ++ quoted "ComputedName" ++ ":" ++ quoted "imac5k.local" ++ ","
      ++ quoted "Hostinfo" ++ ":{" ++ quoted "OS" ++ ":" ++ quoted "Linux" ++ "}}}".

Definition exampleWho : tailcfg.WhoIsResponse :=
  {| tailcfg.Node :=
       {| tailcfg.ComputedName := "imac5k.local";
          tailcfg.Hostinfo := {| tailcfg.OS := "Linux" |} |};
     tailcfg.UserProfile :=
       {| tailcfg.DisplayName := "Foo Barberson";
          tailcfg.LoginName := "foo@bar.com";
          tailcfg.ProfilePicURL := "https://x/y.png" |} |}.

(** A world in which the template file reads as [file], a template is its
    source text and parses unless that text is empty, tailscaled answers
    every request with [reply], only [exampleJSON] decodes, and executing a
    template reports [execErr]. *)
Definition exampleWorld (file : result string) (reply : result http.Response)
    (execErr : option error) : World :=
  {| Template := string;
     ReadFile := fun _ => file;
     Parse := fun _ text =>
       if (text =? "")%string then Err "template: home: unexpected EOF" else Ok text;
     ExecuteTemplate := fun t data => (t, execErr);
     QueryEscape := fun s => s;
     NewRequestWithContext := fun method url =>
       Ok {| http.Method := method; http.URL := url;
             http.Host := "local-tailscaled.sock"; http.RequestURI := "";
             http.RemoteAddr := ""; http.TLS := None;
             http.Authorization := None |};
     LocalTCPPortAndToken := Err "not supported";
     ClientDo := fun _ => reply;
     Unmarshal := fun body =>
       if (body =? exampleJSON)%string then Ok exampleWho
       else Err "invalid character";
     Quote := quoted |}.

Definition reply200 (body : string) : result http.Response :=
  Ok {| http.Status := "200 OK"; http.StatusCode := 200; http.Body := body |}.

(** A request for [uri] over TLS, or not, from [remote]. *)
Definition exampleRequest (tls : bool) (host uri remote : string) : http.Request :=
  {| http.Method := "GET"; http.URL := uri; http.Host := host;
     http.RequestURI := uri; http.RemoteAddr := remote;
     http.TLS := if tls then Some http.connectionState else None;
     http.Authorization := None |}.

Definition devFlags : Flags := {| httpAddr := ":8080"; httpsAddr := ""; testIP := "" |}.

(** A production set-up in which lookups succeed with [exampleWho]. *)
Definition prodWorld : World :=
  exampleWorld (Err "open hello.tmpl.html: no such file or directory")
    (reply200 exampleJSON) None.

(** A production set-up in which tailscaled cannot be reached. *)
Definition prodWorldDown : World :=
  exampleWorld (Err "open hello.tmpl.html: no such file or directory")
    (Err "dial unix: connect: no such file or directory") None.

(** A production set-up in which executing the template fails. *)
Definition prodWorldExecFails : World :=
  exampleWorld (Err "open hello.tmpl.html: no such file or directory")
    (reply200 exampleJSON) (Some "template: home: write: broken pipe").

(** A dev set-up with a template file and no tailscaled. *)
Definition devWorld : World :=
  exampleWorld (Ok "<html>") (Err "dial unix: connect: no such file or directory") None.

(** A dev set-up whose template file does not parse. *)
Definition devWorldBadTemplate : World :=
  exampleWorld (Ok "") (reply200 exampleJSON) None.

(** A dev set-up without a template file. *)
Definition devWorldNoFile : World :=
  exampleWorld (Err "open hello.tmpl.html: no such file or directory")
    (reply200 exampleJSON) None.

(** A reply of 250 bytes that is not JSON. *)
Definition longBody : string := String.concat "" (repeat "<!DOCTYPE>" 25).

Definition prodWorldLongBody : World :=
  exampleWorld (Err "open hello.tmpl.html: no such file or directory")
    (reply200 longBody) None.

(** The request that [whoIs "100.2.3.4"] sends in the example worlds. *)
Definition exampleWhoIsRequest : http.Request :=
  {| http.Method := "GET";
     http.URL := "http://local-tailscaled.sock/localapi/v0/whois?ip=100.2.3.4";
     http.Host := "local-tailscaled.sock"; http.RequestURI := "";
     http.RemoteAddr := ""; http.TLS := None; http.Authorization := None |}.

(** The claim that the mode depends on the HTTPS address alone. *)
Definition devModeByHTTPSOnly (f : Flags) : Prop :=
  devMode f = true <-> httpsAddr f = "".

(** ** The rest of package [main]: start-up and the client's dialer *)

(** Package [strconv] of the Go standard library *)
Module strconv.

(** [strconv.Itoa(i)]: [i] in decimal, with a minus sign when negative. *)
Definition Itoa (i : Z) : string := NilZero.string_of_int (Z.to_int i).

End strconv.

(** How a page's data is filled from a lookup (hello.go, lines 151-158). *)
Definition whoData (who : tailcfg.WhoIsResponse) (ip : string) : tmplData :=
  {| DisplayName := tailcfg.DisplayName (tailcfg.UserProfile who);
     LoginName := tailcfg.LoginName (tailcfg.UserProfile who);
     ProfilePicURL := tailcfg.ProfilePicURL (tailcfg.UserProfile who);
     MachineName := firstLabel (tailcfg.ComputedName (tailcfg.Node who));
     MachineOS := tailcfg.OS (tailcfg.Hostinfo (tailcfg.Node who));
     IP := ip |}.

(** What [tsSockClient]'s [DialContext] does (hello.go, lines 176-185). *)
Inductive dialed : Type :=
| DialTCP (network address : string)
| ConnectDefault.

(** The servers [main] starts, each in a goroutine of its own. *)
Inductive listener : Type :=
| ListenAndServe (addr : string)
| ListenAndServeTLS (addr certFile keyFile : string).

Section Main.

Context {W : World}.

(** The URL [whoIs] asks for (hello.go, line 191). *)
Definition whoIsURL (ip : string) : string :=
  "http://local-tailscaled.sock/localapi/v0/whois?ip=" ++ QueryEscape ip.

(** hello.go, lines 176-185: the [network] and [addr] it is asked to dial
    are not looked at. *)
Definition DialContext (network addr : string) : dialed :=
  match LocalTCPPortAndToken with
  | Ok (port, _) => DialTCP "tcp" ("localhost:" ++ strconv.Itoa port)
  | Err _ => ConnectDefault
  end.

(** How [main] ends, or stays. *)
Inductive mainResult : Type :=
(** [-test-ip]: the response was encoded on standard output, as JSON
    indented by tabs, and [main] returned *)
| MainPrinted (res : tailcfg.WhoIsResponse)
(** [log.Fatal] or [log.Fatalf] ended the process *)
| MainFatal
(** [template.Must] panicked *)
| MainPanic (err : error)
(** [root] is registered for "/", the package variable [tmpl] has this
    value ([None] is nil) and these servers were started; [main] waits for
    the first of them to fail and then ends the process with [log.Fatal] *)
| MainServing (tmpl : option Template) (servers : list listener).

(** hello.go, lines 59-76 *)
Definition startServers (flags : Flags) : list call * list listener :=
  let http :=
    if negb (httpAddr flags =? "")%string
    then ([CPrintf ("running HTTP server on " ++ httpAddr flags)],
          [ListenAndServe (httpAddr flags)])
    else ([], []) in
  let https :=
    if negb (httpsAddr flags =? "")%string
    then ([CPrintf ("running HTTPS server on " ++ httpsAddr flags)],
          [ListenAndServeTLS (httpsAddr flags)
             "/etc/hello/hello.ipn.dev.crt" "/etc/hello/hello.ipn.dev.key"])
    else ([], []) in
  ((fst http ++ fst https)%list, (snd http ++ snd https)%list).

(** hello.go, lines 56-76, with [tmpl] set *)
Definition serve (flags : Flags) (tmpl : option Template)
  : list call * mainResult :=
  (CPrintf "Starting hello server." :: fst (startServers flags),
   MainServing tmpl (snd (startServers flags))).

(** hello.go, lines 37-77; [flags] are the flags after [flag.Parse()]. *)
Definition main (flags : Flags) (embeddedTemplate : string)
  : list call * mainResult :=
  if negb (testIP flags =? "")%string then
    match whoIs (testIP flags) with
    | (tr, Some (Ok res)) => (tr, MainPrinted res)
    | (tr, Some (Err err)) => ((tr ++ [CFatal err])%list, MainFatal)
    | (tr, None) => (tr, MainFatal)
    end
  else if negb (devMode flags) then
    if (embeddedTemplate =? "")%string then
      ([CFatal "embeddedTemplate is empty; must be build with Go 1.16+"], MainFatal)
    else
      match Parse "home" embeddedTemplate with
      | Err err => ([], MainPanic err)
      | Ok t => serve flags (Some t)
      end
  else serve flags None.

(** hello.go, lines 133-161: the calls [root] makes once the lookup has
    returned [v], with the template [t] at hand. *)
Definition afterLookup (flags : Flags) (t : Template) (ip : string)
    (v : result tailcfg.WhoIsResponse) : list call :=
  match v with
  | Ok who =>
      [CHeaderSet "Content-Type" "text/html; charset=utf-8";
       CExecute t (whoData who ip)]
  | Err err =>
      if devMode flags then
        [CPrintf ("warning: using fake data in dev mode due to whois lookup error: " ++ err);
         CHeaderSet "Content-Type" "text/html; charset=utf-8";
         CExecute t fakeData]
      else
        [CPrintf ("whois(" ++ Quote ip ++ ") error: " ++ err);
         CError "Your Tailscale works, but we failed to look you up." 500]
  end.

(** The calls that ask tailscaled. *)
Definition isLookup (c : call) : bool :=
  match c with
  | CDo _ => true
  | _ => false
  end.

End Main.

(** The flags of [hello -test-ip 100.2.3.4]. *)
Definition testIPFlags : Flags :=
  {| httpAddr := ":80"; httpsAddr := ":443"; testIP := "100.2.3.4" |}.

(** A set-up on macOS, where tailscaled listens on a local TCP port. *)
Definition macWorld : World :=
  {| Template := string;
     ReadFile := fun _ => Err "open hello.tmpl.html: no such file or directory";
     Parse := fun _ text =>
       if (text =? "")%string then Err "template: home: unexpected EOF" else Ok text;
     ExecuteTemplate := fun t data => (t, None);
     QueryEscape := fun s => s;
     NewRequestWithContext := fun method url =>
       Ok {| http.Method := method; http.URL := url;
             http.Host := "local-tailscaled.sock"; http.RequestURI := "";
             http.RemoteAddr := ""; http.TLS := None;
             http.Authorization := None |};
     LocalTCPPortAndToken := Ok (41641, "s3cret");
     ClientDo := fun _ =>
       Ok {| http.Status := "403 Forbidden"; http.StatusCode := 403;
             http.Body := exampleJSON |};
     Unmarshal := fun body =>
       if (body =? exampleJSON)%string then Ok exampleWho
       else Err "invalid character";
     Quote := quoted |}.

(** ** Facts about the string primitives *)

Lemma len_nonneg s : 0 <= len s.
Proof. unfold len. lia. Qed.

Lemma len_String a s : len (String a s) = len s + 1.
Proof.
  unfold len. change (String.length (String a s)) with (S (String.length s)). lia.
Qed.

Lemma len_append s t : len (s ++ t) = len s + len t.
Proof.
  induction s as [|a s IH]; cbn [append].
  - change (len "") with 0. lia.
  - rewrite !len_String, IH. lia.
Qed.

Lemma append_nil_r s : s ++ "" = s.
Proof. induction s; simpl; congruence. Qed.

Lemma append_assoc s t u : (s ++ t) ++ u = s ++ t ++ u.
Proof. induction s; simpl; congruence. Qed.

Lemma substring_all s : substring 0 (String.length s) s = s.
Proof. induction s; simpl; congruence. Qed.

Lemma substring_append_l s t : substring 0 (String.length s) (s ++ t) = s.
Proof.
  induction s as [|a s IH]; simpl.
  - destruct t; reflexivity.
  - now rewrite IH.
Qed.

Lemma substring_append_r s t :
  substring (String.length s) (String.length t) (s ++ t) = t.
Proof.
  induction s as [|a s IH]; simpl.
  - apply substring_all.
  - exact IH.
Qed.

Lemma slice_prefix s t : slice (s ++ t) 0 (len s) = s.
Proof.
  unfold slice, len. rewrite Z.sub_0_r, Nat2Z.id. apply substring_append_l.
Qed.

Lemma slice_suffix s t : slice (s ++ t) (len s) (len (s ++ t)) = t.
Proof.
  unfold slice. rewrite len_append. unfold len.
  replace (Z.of_nat (String.length s) + Z.of_nat (String.length t)
           - Z.of_nat (String.length s)) with (Z.of_nat (String.length t)) by lia.
  rewrite !Nat2Z.id. apply substring_append_r.
Qed.

Lemma slice_full s : slice s 0 (len s) = s.
Proof.
  unfold slice, len. rewrite Z.sub_0_r, Nat2Z.id. apply substring_all.
Qed.

(** A slice that stays inside the string splits it. *)
Lemma substring_split n s :
  (n <= String.length s)%nat ->
  exists rest, s = substring 0 n s ++ rest /\ String.length (substring 0 n s) = n.
Proof.
  revert s. induction n as [|n IH]; intros s Hn.
  - exists s. destruct s; simpl; auto.
  - destruct s as [|a s]; simpl in Hn; [lia|].
    destruct (IH s) as [rest [E L]]; [lia|].
    exists rest. simpl. split; [now rewrite <- E | now rewrite L].
Qed.

Lemma slice_split s n :
  0 <= n <= len s ->
  exists rest, s = slice s 0 n ++ rest /\ len (slice s 0 n) = n.
Proof.
  intros Hn. unfold slice. rewrite Z.sub_0_r. change (Z.to_nat 0) with 0%nat.
  destruct (substring_split (Z.to_nat n) s) as [rest [E L]]; [unfold len in Hn; lia|].
  exists rest. split; [exact E | unfold len; rewrite L; lia].
Qed.

Lemma prefix_append s t : prefix s (s ++ t) = true.
Proof.
  induction s as [|a s IH]; simpl.
  - destruct t; reflexivity.
  - destruct (ascii_dec a a); [exact IH | congruence].
Qed.

Lemma prefix_split s t : prefix s t = true -> exists u, t = s ++ u.
Proof.
  revert t. induction s as [|a s IH]; intros t H.
  - exists t. reflexivity.
  - destruct t as [|b t]; simpl in H; [discriminate|].
    destruct (ascii_dec a b) as [->|]; [|discriminate].
    destruct (IH t H) as [u ->]. exists u. reflexivity.
Qed.

Module strings_facts.
Import strings.

Lemma Index_range s sub : -1 <= Index s sub <= len s.
Proof.
  induction s as [|a s IH]; cbn [Index].
  - change (len "") with 0. destruct (prefix sub ""); lia.
  - rewrite len_String. destruct (prefix sub (String a s)); [lia|].
    destruct (Index s sub <? 0) eqn:E; [lia|].
    apply Z.ltb_ge in E. lia.
Qed.

(** [Index] finds an occurrence: the string splits around it. *)
Lemma Index_found s sub :
  0 <= Index s sub ->
  exists a b, s = a ++ sub ++ b /\ len a = Index s sub.
Proof.
  induction s as [|c s IH]; cbn [Index].
  - destruct (prefix sub "") eqn:P; [|lia]. intros _.
    destruct (prefix_split _ _ P) as [u E].
    exists "", u. split; [exact E | reflexivity].
  - destruct (prefix sub (String c s)) eqn:P.
    + intros _. destruct (prefix_split _ _ P) as [u E].
      exists "", u. split; [exact E | reflexivity].
    + destruct (Index s sub <? 0) eqn:E; [lia|]. intros _.
      apply Z.ltb_ge in E. destruct (IH E) as [a [b [Es La]]].
      exists (String c a), b. split.
      * simpl. now rewrite <- Es.
      * rewrite len_String. lia.
Qed.

(** [Index] misses no occurrence. *)
Lemma Index_complete a sub b : 0 <= Index (a ++ sub ++ b) sub <= len a.
Proof.
  induction a as [|c a IH].
  - cbn [append]. change (len "") with 0.
    destruct (sub ++ b) eqn:E; cbn [Index]; rewrite <- E, prefix_append; lia.
  - cbn [append Index]. rewrite len_String.
    destruct (prefix sub (String c (a ++ sub ++ b))); [pose proof (len_nonneg a); lia|].
    destruct (Index (a ++ sub ++ b) sub <? 0) eqn:E.
    + apply Z.ltb_lt in E. lia.
    + lia.
Qed.

Lemma Contains_spec s sub :
  Contains s sub = true <-> exists a b, s = a ++ sub ++ b.
Proof.
  unfold Contains. rewrite Z.leb_le. split.
  - intros H. destruct (Index_found _ _ H) as [a [b [E _]]]. now exists a, b.
  - intros [a [b ->]]. apply Index_complete.
Qed.

Lemma IndexByte_absent s c : ~ occurs c s -> IndexByte s c = -1.
Proof.
  induction s as [|a s IH]; simpl; intros H; [reflexivity|].
  destruct (Ascii.eqb_spec a c) as [->|_]; [tauto|].
  rewrite IH by tauto. reflexivity.
Qed.

Lemma IndexByte_first s c t :
  ~ occurs c s -> IndexByte (s ++ String c t) c = len s.
Proof.
  induction s as [|a s IH]; simpl; intros H.
  - now rewrite Ascii.eqb_refl.
  - destruct (Ascii.eqb_spec a c) as [->|_]; [tauto|].
    rewrite IH by tauto. rewrite len_String.
    pose proof (len_nonneg s). destruct (len s <? 0) eqn:E; [apply Z.ltb_lt in E; lia|lia].
Qed.

Lemma LastIndexByte_absent s c : ~ occurs c s -> LastIndexByte s c = -1.
Proof.
  induction s as [|a s IH]; simpl; intros H; [reflexivity|].
  rewrite IH by tauto. simpl.
  destruct (Ascii.eqb_spec a c) as [->|_]; [tauto|reflexivity].
Qed.

Lemma LastIndexByte_last s c t :
  ~ occurs c t -> LastIndexByte (s ++ String c t) c = len s.
Proof.
  intros H. induction s as [|a s IH]; simpl.
  - rewrite LastIndexByte_absent by exact H. simpl. now rewrite Ascii.eqb_refl.
  - rewrite IH, len_String. pose proof (len_nonneg s).
    destruct (0 <=? len s) eqn:E; [reflexivity|apply Z.leb_gt in E; lia].
Qed.

(** For a one-byte needle [Index] is [IndexByte]. *)
Lemma Index_byte s c : Index s (String c "") = IndexByte s c.
Proof.
  induction s as [|a s IH]; simpl; [reflexivity|].
  destruct (ascii_dec c a) as [->|N].
  - rewrite Ascii.eqb_refl. destruct s; reflexivity.
  - destruct (Ascii.eqb_spec a c) as [->|_]; [congruence|].
    now rewrite IH.
Qed.

End strings_facts.

Lemma occurs_append c s t : occurs c (s ++ t) <-> occurs c s \/ occurs c t.
Proof. induction s as [|a s IH]; simpl; tauto. Qed.

Lemma firstLabel_no_period s : ~ occurs "."%char s -> firstLabel s = s.
Proof.
  intros H. unfold firstLabel.
  change "."%string with (String "."%char "").
  rewrite strings_facts.Index_byte, strings_facts.IndexByte_absent by exact H.
  reflexivity.
Qed.

Lemma firstLabel_period a b :
  ~ occurs "."%char a -> firstLabel (a ++ "." ++ b) = a.
Proof.
  intros H. unfold firstLabel.
  change "."%string with (String "."%char "").
  rewrite strings_facts.Index_byte. simpl append.
  rewrite strings_facts.IndexByte_first by exact H.
  pose proof (len_nonneg a).
  destruct (len a =? -1) eqn:E; [apply Z.eqb_eq in E; lia|].
  simpl. apply slice_prefix.
Qed.

(** ** Running the handler on examples *)

Example root_example_ok :
  @root (exampleWorld (Err "no file") (reply200 exampleJSON) None) defaultFlags "<html>"
    (exampleRequest true "hello.ipn.dev" "/" "100.2.3.4:51234")
  = ([CLocalTCPPortAndToken;
      CDo {| http.Method := "GET";
             http.URL := "http://local-tailscaled.sock/localapi/v0/whois?ip=100.2.3.4";
             http.Host := "local-tailscaled.sock"; http.RequestURI := "";
             http.RemoteAddr := ""; http.TLS := None; http.Authorization := None |};
      CHeaderSet "Content-Type" "text/html; charset=utf-8";
      CExecute ("<html>" : @Template (exampleWorld (Err "no file") (reply200 exampleJSON) None))
        {| DisplayName := "Foo Barberson"; LoginName := "foo@bar.com";
           ProfilePicURL := "https://x/y.png"; MachineName := "imac5k";
           MachineOS := "Linux"; IP := "100.2.3.4" |}],
     Some tt).
Proof. vm_compute. reflexivity. Qed.

Example SplitHostPort_examples :
  net.SplitHostPort "100.2.3.4:80" = Ok ("100.2.3.4", "80") /\
  net.SplitHostPort "[::1]:80" = Ok ("::1", "80") /\
  net.SplitHostPort "[fe80::1%lo0]:53" = Ok ("fe80::1%lo0", "53") /\
  net.SplitHostPort ":80" = Ok ("", "80") /\
  net.SplitHostPort "100.2.3.4" = Err "address 100.2.3.4: missing port in address" /\
  net.SplitHostPort "::1" = Err "address ::1: too many colons in address" /\
  net.SplitHostPort "[::1]" = Err "address [::1]: missing port in address" /\
  net.SplitHostPort "[::1]80:1" = Err "address [::1]80:1: missing port in address" /\
  net.SplitHostPort "[::1]:80:1" = Err "address [::1]:80:1: too many colons in address" /\
  net.SplitHostPort "[a[b]:80" = Err "address [a[b]:80: unexpected '[' in address" /\
  net.SplitHostPort "a]b:80" = Err "address a]b:80: unexpected ']' in address" /\
  net.SplitHostPort "" = Err "address : missing port in address".
Proof. repeat split; vm_compute; reflexivity. Qed.

Example firstLabel_examples :
  firstLabel "imac5k.local" = "imac5k" /\
  firstLabel "imac5k" = "imac5k" /\
  firstLabel "a.b.c" = "a" /\
  firstLabel ".local" = "" /\
  firstLabel "" = "".
Proof. repeat split; vm_compute; reflexivity. Qed.

(** ** Facts about [net.SplitHostPort] *)

Lemma substring_mid a b c :
  substring (String.length a) (String.length b) (a ++ b ++ c) = b.
Proof.
  induction a as [|x a IH]; cbn [append String.length substring].
  - apply substring_append_l.
  - exact IH.
Qed.

Lemma slice_mid a b c lo hi :
  lo = len a -> hi = len a + len b -> slice (a ++ b ++ c) lo hi = b.
Proof.
  intros -> ->. unfold slice, len.
  replace (Z.of_nat (String.length a) + Z.of_nat (String.length b)
           - Z.of_nat (String.length a)) with (Z.of_nat (String.length b)) by lia.
  rewrite !Nat2Z.id. apply substring_mid.
Qed.

Lemma slice_from a b lo hi :
  lo = len a -> hi = len (a ++ b) -> slice (a ++ b) lo hi = b.
Proof. intros -> ->. apply slice_suffix. Qed.

Lemma byteAt_head_absent c s : ~ occurs c s -> isByte (byteAt s 0) c = false.
Proof.
  destruct s as [|a s]; cbn; intros H; [reflexivity|].
  destruct (Ascii.eqb_spec a c) as [->|_]; [tauto|reflexivity].
Qed.

Lemma not_found_leb s c : ~ occurs c s -> (0 <=? strings.IndexByte s c) = false.
Proof. intros H. now rewrite strings_facts.IndexByte_absent. Qed.

(** An address without a colon has no port. *)
Lemma SplitHostPort_no_colon addr :
  ~ occurs ":"%char addr ->
  net.SplitHostPort addr = net.addrErr addr net.missingPort.
Proof.
  intros H. unfold net.SplitHostPort.
  now rewrite strings_facts.LastIndexByte_absent.
Qed.

(** ["host:port"] *)
Lemma SplitHostPort_plain host port :
  ~ occurs ":"%char host -> ~ occurs "["%char host -> ~ occurs "]"%char host ->
  ~ occurs ":"%char port -> ~ occurs "["%char port -> ~ occurs "]"%char port ->
  net.SplitHostPort (host ++ ":" ++ port) = Ok (host, port).
Proof.
  intros Hc Ho Hb Pc Po Pb. unfold net.SplitHostPort.
  change (":" ++ port) with (String ":"%char port).
  rewrite strings_facts.LastIndexByte_last by exact Pc.
  pose proof (len_nonneg host) as Hl.
  destruct (len host <? 0) eqn:E; [apply Z.ltb_lt in E; lia|clear E].
  rewrite byteAt_head_absent
    by (rewrite occurs_append; cbn; intros [?|[?|?]]; [tauto|discriminate|tauto]).
  rewrite slice_prefix, not_found_leb by exact Hc.
  unfold net.splitTail. rewrite slice_full.
  rewrite !not_found_leb
    by (rewrite occurs_append; cbn; intros [?|[?|?]]; [tauto|discriminate|tauto]).
  f_equal. f_equal.
  change (host ++ String ":"%char port) with (host ++ ":" ++ port).
  rewrite <- append_assoc. apply slice_from.
  - rewrite len_append. reflexivity.
  - reflexivity.
Qed.

(** ["[host]:port"], the form of IPv6 literals *)
Lemma SplitHostPort_bracketed host port :
  ~ occurs "["%char host -> ~ occurs "]"%char host ->
  ~ occurs ":"%char port -> ~ occurs "["%char port -> ~ occurs "]"%char port ->
  net.SplitHostPort ("[" ++ host ++ "]:" ++ port) = Ok (host, port).
Proof.
  intros Ho Hb Pc Po Pb. unfold net.SplitHostPort.
  pose proof (len_nonneg host) as Hl. pose proof (len_nonneg port) as Pl.
  assert (Li : strings.LastIndexByte ("[" ++ host ++ "]:" ++ port) ":" = len host + 2).
  { replace ("[" ++ host ++ "]:" ++ port)
      with (("[" ++ host ++ "]") ++ String ":"%char port)
      by (cbn; rewrite ?append_assoc; reflexivity).
    rewrite strings_facts.LastIndexByte_last by exact Pc.
    change ("[" ++ host ++ "]") with (String "["%char (host ++ "]")).
    rewrite len_String, len_append. change (len "]") with 1. lia. }
  assert (Le : strings.IndexByte ("[" ++ host ++ "]:" ++ port) "]" = len host + 1).
  { replace ("[" ++ host ++ "]:" ++ port)
      with (("[" ++ host) ++ String "]"%char (":" ++ port))
      by (cbn; rewrite ?append_assoc; reflexivity).
    rewrite strings_facts.IndexByte_first
      by (cbn; intros [?|?]; [discriminate|tauto]).
    change ("[" ++ host) with (String "["%char host). rewrite len_String. lia. }
  assert (Ln : len ("[" ++ host ++ "]:" ++ port) = len host + len port + 3).
  { change ("[" ++ host ++ "]:" ++ port) with (String "["%char (host ++ "]:" ++ port)).
    rewrite len_String, !len_append. change (len "]:") with 2. lia. }
  rewrite Li, Le, Ln.
  destruct (len host + 2 <? 0) eqn:E1; [apply Z.ltb_lt in E1; lia|clear E1].
  change (isByte (byteAt ("[" ++ host ++ "]:" ++ port) 0) "[") with true.
  cbv iota.
  destruct (len host + 1 <? 0) eqn:E2; [apply Z.ltb_lt in E2; lia|clear E2].
  destruct (len host + 1 + 1 =? len host + len port + 3) eqn:E3;
    [apply Z.eqb_eq in E3; lia|clear E3].
  destruct (len host + 1 + 1 =? len host + 2) eqn:E4;
    [clear E4|apply Z.eqb_neq in E4; lia].
  unfold net.splitTail. rewrite Ln.
  assert (S1 : slice ("[" ++ host ++ "]:" ++ port) 1 (len host + len port + 3)
               = host ++ "]:" ++ port).
  { rewrite <- Ln. apply slice_from; reflexivity. }
  assert (S2 : slice ("[" ++ host ++ "]:" ++ port) (len host + 1 + 1)
                 (len host + len port + 3) = ":" ++ port).
  { rewrite <- Ln.
    replace ("[" ++ host ++ "]:" ++ port) with (("[" ++ host ++ "]") ++ ":" ++ port)
      by (cbn; rewrite ?append_assoc; reflexivity).
    apply slice_from; [|reflexivity].
    change ("[" ++ host ++ "]") with (String "["%char (host ++ "]")).
    rewrite len_String, len_append. change (len "]") with 1. lia. }
  assert (S3 : slice ("[" ++ host ++ "]:" ++ port) (len host + 2 + 1)
                 (len host + len port + 3) = port).
  { rewrite <- Ln.
    replace ("[" ++ host ++ "]:" ++ port) with (("[" ++ host ++ "]:") ++ port)
      by (cbn; rewrite ?append_assoc; reflexivity).
    apply slice_from; [|reflexivity].
    change ("[" ++ host ++ "]:") with (String "["%char (host ++ "]:")).
    rewrite len_String, len_append. change (len "]:") with 2. lia. }
  assert (S4 : slice ("[" ++ host ++ "]:" ++ port) 1 (len host + 1) = host).
  { apply (slice_mid "[" host ("]:" ++ port)); [reflexivity|].
    change (len "[") with 1. lia. }
  rewrite S1, S2, S3, S4.
  rewrite not_found_leb
    by (rewrite occurs_append; cbn; intros [?|[?|[?|?]]]; [tauto|discriminate|discriminate|tauto]).
  rewrite not_found_leb by (cbn; intros [?|?]; [discriminate|tauto]).
  reflexivity.
Qed.

(** ** Facts about the handler *)

Section HelloFacts.

Context {W : World}.

Lemma bind_value {A B} tr (a : A) (f : A -> M B) :
  bind (tr, Some a) f = ((tr ++ trace (f a))%list, snd (f a)).
Proof. reflexivity. Qed.

Lemma bind_exit {A B} tr (f : A -> M B) : bind (tr, @None A) f = (tr, None).
Proof. reflexivity. Qed.

Lemma bind_Forall {A B} (P : call -> Prop) (m : M A) (f : A -> M B) :
  Forall P (trace m) -> (forall a, Forall P (trace (f a))) ->
  Forall P (trace (bind m f)).
Proof.
  intros Hm Hf. destruct m as [tr [a|]]; cbn in *.
  - apply Forall_app. split; [exact Hm | apply Hf].
  - exact Hm.
Qed.

Lemma statusCode_quiet tr tr' :
  Forall (fun c => isResponse c = false) tr ->
  statusCode (tr ++ tr')%list = statusCode tr'.
Proof.
  induction 1 as [|c tr Hc _ IH]; [reflexivity|].
  destruct c; cbn in *; try discriminate; exact IH.
Qed.

Lemma filter_quiet tr tr' :
  Forall (fun c => isResponse c = false) tr ->
  filter isResponse (tr ++ tr')%list = filter isResponse tr'.
Proof.
  induction 1 as [|c tr Hc _ IH]; [reflexivity|].
  cbn. now rewrite Hc.
Qed.

(** [whoIs] always returns: it never ends the process. *)
Lemma whoIs_returns ip : exists v, snd (whoIs ip) = Some v.
Proof.
  unfold whoIs.
  destruct (NewRequestWithContext _ _) as [req|e]; cbn; [|eauto].
  destruct (ClientDo _) as [res|e]; cbn; [|eauto].
  destruct (negb _); cbn; [eauto|].
  destruct (Unmarshal _); cbn; eauto.
Qed.

(** [whoIs] talks to tailscaled only: it writes nothing to the client. *)
Lemma whoIs_calls ip :
  Forall (fun c => c = CLocalTCPPortAndToken \/ exists req, c = CDo req)
         (trace (whoIs ip)).
Proof.
  unfold whoIs.
  destruct (NewRequestWithContext _ _) as [req|e]; cbn; [|constructor].
  assert (H : forall tr, Forall (fun c => c = CLocalTCPPortAndToken \/ exists req, c = CDo req) tr ->
            Forall (fun c => c = CLocalTCPPortAndToken \/ exists req, c = CDo req)
              (CLocalTCPPortAndToken :: CDo (setLocalAuth req) :: tr)).
  { intros tr Htr. constructor; [now left|]. constructor; [right; eauto|exact Htr]. }
  destruct (ClientDo _) as [res|e]; cbn; [|apply H; constructor].
  destruct (negb _); cbn; [apply H; constructor|].
  destruct (Unmarshal _); cbn; apply H; constructor.
Qed.

Lemma whoIs_quiet ip : Forall (fun c => isResponse c = false) (trace (whoIs ip)).
Proof.
  eapply Forall_impl; [|apply whoIs_calls].
  intros c [->|[req ->]]; reflexivity.
Qed.

Lemma pastHTTPSRedirect_test flags r :
  pastHTTPSRedirect flags r ->
  (match http.TLS r with None => true | Some _ => false end
   && negb (httpsAddr flags =? "")%string) = false.
Proof.
  intros [H|H].
  - destruct (http.TLS r); [reflexivity|congruence].
  - rewrite H. cbn. apply andb_false_r.
Qed.

Lemma devMode_https flags : devMode flags = true -> httpsAddr flags = "".
Proof.
  unfold devMode. intros H. apply andb_true_iff in H.
  now apply String.eqb_eq.
Qed.

(** Past both redirects, [root] is decided by the remote address. *)
Lemma root_at_address_extract flags tmpl r :
  reachesAddressExtract flags r ->
  root flags tmpl r =
    match net.SplitHostPort (http.RemoteAddr r) with
    | Err _ => http_Error "no remote addr" 500
    | Ok (ip, _) => rootWithIP flags tmpl ip
    end.
Proof.
  intros [Hs Hu]. unfold root.
  rewrite (pastHTTPSRedirect_test _ _ Hs), Hu. reflexivity.
Qed.

(** With the address split and the template at hand, [root] is decided by
    the lookup. *)
Lemma root_at_resolve flags tmpl r ip t tr :
  reachesResolve flags tmpl r ip t tr ->
  root flags tmpl r =
    bind (tr, Some tt) (fun _ =>
    bind (whoIs ip) (fun who =>
      match who with
      | Err err =>
          if devMode flags then
            ([CPrintf ("warning: using fake data in dev mode due to whois lookup error: " ++ err);
              CHeaderSet "Content-Type" "text/html; charset=utf-8";
              CExecute t fakeData], Some tt)
          else
            ([CPrintf ("whois(" ++ Quote ip ++ ") error: " ++ err);
              CError "Your Tailscale works, but we failed to look you up." 500], Some tt)
      | Ok who =>
          ([CHeaderSet "Content-Type" "text/html; charset=utf-8";
            CExecute t
              {| DisplayName := tailcfg.DisplayName (tailcfg.UserProfile who);
                 LoginName := tailcfg.LoginName (tailcfg.UserProfile who);
                 ProfilePicURL := tailcfg.ProfilePicURL (tailcfg.UserProfile who);
                 MachineName := firstLabel (tailcfg.ComputedName (tailcfg.Node who));
                 MachineOS := tailcfg.OS (tailcfg.Hostinfo (tailcfg.Node who));
                 IP := ip |}], Some tt)
      end)).
Proof.
  intros [Ha [[port Hp] Ht]].
  rewrite (root_at_address_extract _ _ _ Ha), Hp.
  unfold rootWithIP. rewrite Ht.
  destruct (whoIs_returns ip) as [v Hv].
  destruct (whoIs ip) as [trW o]. cbn in Hv. subst o.
  rewrite !bind_value. cbn [trace fst snd].
  destruct v as [who|err]; [reflexivity|].
  destruct (devMode flags); reflexivity.
Qed.

Lemma getTmpl_cases flags tmpl :
  (devMode flags = false /\ getTmpl flags tmpl = ([], Some (Ok tmpl))) \/
  (devMode flags = true /\ exists e,
     ReadFile "hello.tmpl.html" = Err e /\
     getTmpl flags tmpl = ([CReadFile "hello.tmpl.html"; CFatal e], None)) \/
  (devMode flags = true /\ exists s,
     ReadFile "hello.tmpl.html" = Ok s /\
     getTmpl flags tmpl = ([CReadFile "hello.tmpl.html"], Some (Parse "home" s))).
Proof.
  unfold getTmpl, slurpHTML. destruct (devMode flags); [right|left; auto].
  destruct (ReadFile "hello.tmpl.html") as [s|e]; [right|left]; split; eauto.
Qed.

Lemma getTmpl_quiet flags tmpl :
  Forall (fun c => isResponse c = false) (trace (getTmpl flags tmpl)).
Proof.
  destruct (getTmpl_cases flags tmpl) as [[_ E]|[[_ [e [_ E]]]|[_ [s [_ E]]]]];
    rewrite E; repeat constructor.
Qed.

Lemma rootWithIP_calls flags tmpl ip :
  Forall (afterAddressExtract flags) (trace (rootWithIP flags tmpl ip)).
Proof.
  assert (Hw : Forall (afterAddressExtract flags) (trace (whoIs ip))).
  { eapply Forall_impl; [|apply whoIs_calls]. intros c [->|[req ->]]; exact I. }
  unfold rootWithIP.
  destruct (getTmpl_cases flags tmpl) as [[D E]|[[D [e [R E]]]|[D [s [R E]]]]];
    rewrite E.
  - rewrite bind_value. cbn [trace fst app].
    apply bind_Forall; [exact Hw|]. intros [who|err]; [repeat constructor|].
    rewrite D. repeat constructor.
  - rewrite bind_exit. repeat constructor.
  - rewrite bind_value. cbn [trace fst]. apply Forall_app. split; [repeat constructor|].
    destruct (Parse "home" s) as [t|e] eqn:P.
    + apply bind_Forall; [exact Hw|]. intros [who|err]; [repeat constructor|].
      rewrite D. repeat constructor.
    + cbn. constructor; [exact I|]. constructor; [|constructor].
      split; [reflexivity|]. right. split; [exact D|]. exists s, e. auto.
Qed.

End HelloFacts.

(** ** The properties of the handler *)

Section Properties.

Context {W : World}.

(** C1: when the lookup succeeds, the record handed to the template has the
    user's display name, login name and picture, the machine's OS, the
    caller's IP, and as machine name the node's ComputedName up to its first
    period (all of it when it has none); for the response of the example
    and the caller 100.2.3.4 that is exactly the record with machine name
    "imac5k". *)
Theorem root_resolved_record flags tmpl r ip t tr trW who :
  reachesResolve flags tmpl r ip t tr ->
  whoIs ip = (trW, Some (Ok who)) ->
  root flags tmpl r =
    ((tr ++ trW ++
      [CHeaderSet "Content-Type" "text/html; charset=utf-8";
       CExecute t
         {| DisplayName := tailcfg.DisplayName (tailcfg.UserProfile who);
            LoginName := tailcfg.LoginName (tailcfg.UserProfile who);
            ProfilePicURL := tailcfg.ProfilePicURL (tailcfg.UserProfile who);
            MachineName := firstLabel (tailcfg.ComputedName (tailcfg.Node who));
            MachineOS := tailcfg.OS (tailcfg.Hostinfo (tailcfg.Node who));
            IP := ip |}])%list, Some tt)
  /\ (~ occurs "."%char (tailcfg.ComputedName (tailcfg.Node who)) ->
      firstLabel (tailcfg.ComputedName (tailcfg.Node who))
      = tailcfg.ComputedName (tailcfg.Node who))
  /\ (forall a b,
        tailcfg.ComputedName (tailcfg.Node who) = a ++ "." ++ b ->
        ~ occurs "."%char a ->
        firstLabel (tailcfg.ComputedName (tailcfg.Node who)) = a)
  /\ (who = exampleWho -> ip = "100.2.3.4" ->
      root flags tmpl r =
        ((tr ++ trW ++
          [CHeaderSet "Content-Type" "text/html; charset=utf-8";
           CExecute t
             {| DisplayName := "Foo Barberson"; LoginName := "foo@bar.com";
                ProfilePicURL := "https://x/y.png"; MachineName := "imac5k";
                MachineOS := "Linux"; IP := "100.2.3.4" |}])%list, Some tt)).
Proof.
  intros Hr Hw.
  assert (E : root flags tmpl r =
    ((tr ++ trW ++
      [CHeaderSet "Content-Type" "text/html; charset=utf-8";
       CExecute t
         {| DisplayName := tailcfg.DisplayName (tailcfg.UserProfile who);
            LoginName := tailcfg.LoginName (tailcfg.UserProfile who);
            ProfilePicURL := tailcfg.ProfilePicURL (tailcfg.UserProfile who);
            MachineName := firstLabel (tailcfg.ComputedName (tailcfg.Node who));
            MachineOS := tailcfg.OS (tailcfg.Hostinfo (tailcfg.Node who));
            IP := ip |}])%list, Some tt)).
  { rewrite (root_at_resolve _ _ _ _ _ _ Hr), Hw. reflexivity. }
  split; [exact E|]. split; [apply firstLabel_no_period|]. split.
  - intros a b Hn Ha. rewrite Hn. now apply firstLabel_period.
  - intros -> ->. exact E.
Qed.

(** C2: in dev mode a failed lookup is not reported to the client: [root]
    logs a warning, executes the template on the fixed record "Taily
    Scalerson" and so answers 200, with no error and no redirect. *)
Theorem dev_lookup_failure_uses_fake_data flags tmpl r ip t tr trW err :
  devMode flags = true ->
  reachesResolve flags tmpl r ip t tr ->
  whoIs ip = (trW, Some (Err err)) ->
  root flags tmpl r =
    ((tr ++ trW ++
      [CPrintf ("warning: using fake data in dev mode due to whois lookup error: " ++ err);
       CHeaderSet "Content-Type" "text/html; charset=utf-8";
       CExecute t
         {| DisplayName := "Taily Scalerson"; LoginName := "taily@scaler.son";
            ProfilePicURL := "https://placekitten.com/200/200";
            MachineName := "scaled"; MachineOS := "Linux";
            IP := "100.1.2.3" |}])%list, Some tt)
  /\ statusCode (trace (root flags tmpl r)) = 200
  /\ Forall (fun c => isErrorOrRedirect c = false) (trace (root flags tmpl r)).
Proof.
  intros D Hr Hw.
  assert (Qt : Forall (fun c => isResponse c = false) tr).
  { destruct Hr as [_ [_ Ht]]. pose proof (getTmpl_quiet flags tmpl) as Q.
    now rewrite Ht in Q. }
  assert (Qw : Forall (fun c => isResponse c = false) trW).
  { pose proof (whoIs_quiet ip) as Q. now rewrite Hw in Q. }
  rewrite (root_at_resolve _ _ _ _ _ _ Hr), Hw, D.
  split; [reflexivity|]. cbn [bind trace fst snd app]. split.
  - now rewrite !statusCode_quiet.
  - apply Forall_app. split; [|apply Forall_app; split].
    + eapply Forall_impl; [|exact Qt]. intros [] H; cbn in *; congruence.
    + eapply Forall_impl; [|exact Qw]. intros [] H; cbn in *; congruence.
    + repeat constructor.
Qed.

(** C3: outside dev mode a failed lookup is answered exactly once, with
    status 500 and the fixed message; the template is not executed, on the
    fake data or any other. *)
Theorem production_lookup_failure_500 flags tmpl r ip t tr trW err :
  devMode flags = false ->
  reachesResolve flags tmpl r ip t tr ->
  whoIs ip = (trW, Some (Err err)) ->
  root flags tmpl r =
    ((tr ++ trW ++
      [CPrintf ("whois(" ++ Quote ip ++ ") error: " ++ err);
       CError "Your Tailscale works, but we failed to look you up." 500])%list,
     Some tt)
  /\ statusCode (trace (root flags tmpl r)) = 500
  /\ filter isResponse (trace (root flags tmpl r))
     = [CError "Your Tailscale works, but we failed to look you up." 500]
  /\ forall t' data, ~ In (CExecute t' data) (trace (root flags tmpl r)).
Proof.
  intros D Hr Hw.
  assert (Qt : Forall (fun c => isResponse c = false) tr).
  { destruct Hr as [_ [_ Ht]]. pose proof (getTmpl_quiet flags tmpl) as Q.
    now rewrite Ht in Q. }
  assert (Qw : Forall (fun c => isResponse c = false) trW).
  { pose proof (whoIs_quiet ip) as Q. now rewrite Hw in Q. }
  rewrite (root_at_resolve _ _ _ _ _ _ Hr), Hw, D.
  split; [reflexivity|]. cbn [bind trace fst snd app].
  split; [now rewrite !statusCode_quiet|].
  split; [now rewrite !filter_quiet|].
  intros t' data H. rewrite !in_app_iff in H.
  rewrite Forall_forall in Qt, Qw.
  destruct H as [H|[H|H]].
  - now specialize (Qt _ H).
  - now specialize (Qw _ H).
  - cbn in H. destruct H as [H|[H|[]]]; discriminate.
Qed.

(** C4: when the body of a 200 reply does not decode, the error [whoIs]
    returns quotes [shown], a prefix of the body of at most 200 bytes: the
    first 200 bytes, and so not the whole body, when the body is longer than
    200, and the whole body when it is not. *)
Theorem whoIs_decode_error_bounded ip req res e :
  NewRequestWithContext "GET"
    ("http://local-tailscaled.sock/localapi/v0/whois?ip=" ++ QueryEscape ip) = Ok req ->
  ClientDo (setLocalAuth req) = Ok res ->
  http.StatusCode res = 200 ->
  Unmarshal (http.Body res) = Err e ->
  exists shown rest,
    whoIs ip =
      ([CLocalTCPPortAndToken; CDo (setLocalAuth req)],
       Some (Err ("failed to parse JSON WhoIsResponse from " ++ Quote shown)))
    /\ http.Body res = shown ++ rest
    /\ len shown <= 200
    /\ (200 < len (http.Body res) -> len shown = 200 /\ shown <> http.Body res)
    /\ (len (http.Body res) <= 200 -> shown = http.Body res).
Proof.
  intros Hreq Hdo Hst Hun. unfold whoIs. rewrite Hreq. cbn.
  rewrite Hdo, Hst. cbn. rewrite Hun. cbn.
  destruct (200 <? len (http.Body res)) eqn:L.
  - apply Z.ltb_lt in L.
    destruct (slice_split (http.Body res) 200) as [rest [E Ls]]; [lia|].
    exists (slice (http.Body res) 0 200), rest.
    split; [reflexivity|]. split; [exact E|]. split; [lia|]. split; [|lia].
    intros _. split; [exact Ls|]. intros C. rewrite C in Ls. lia.
  - apply Z.ltb_ge in L. exists (http.Body res), "".
    split; [reflexivity|]. split; [now rewrite append_nil_r|].
    split; [exact L|]. split; [lia|reflexivity].
Qed.

(** C6, as amended: when [getTmpl] returns an error, which it does only in
    dev mode for template text that was read but does not parse, [root]
    answers 500 with the plain-text body "template error: " and the error. *)
Theorem template_error_500 flags tmpl r ip port tr err :
  reachesAddressExtract flags r ->
  net.SplitHostPort (http.RemoteAddr r) = Ok (ip, port) ->
  getTmpl flags tmpl = (tr, Some (Err err)) ->
  root flags tmpl r =
    ((tr ++ [CHeaderSet "Content-Type" "text/plain";
             CError ("template error: " ++ err) 500])%list, Some tt)
  /\ statusCode (trace (root flags tmpl r)) = 500
  /\ devMode flags = true
  /\ exists s, ReadFile "hello.tmpl.html" = Ok s /\ Parse "home" s = Err err.
Proof.
  intros Ha Hp Ht.
  assert (E : root flags tmpl r =
    ((tr ++ [CHeaderSet "Content-Type" "text/plain";
             CError ("template error: " ++ err) 500])%list, Some tt)).
  { rewrite (root_at_address_extract _ _ _ Ha), Hp. unfold rootWithIP.
    rewrite Ht. reflexivity. }
  split; [exact E|]. split.
  - rewrite E. cbn [trace fst]. rewrite statusCode_quiet; [reflexivity|].
    pose proof (getTmpl_quiet flags tmpl) as Q. now rewrite Ht in Q.
  - destruct (getTmpl_cases flags tmpl) as [[_ G]|[[_ [x [_ G]]]|[D [s [R G]]]]];
      rewrite G in Ht; try discriminate.
    split; [exact D|]. exists s. split; [exact R|]. congruence.
Qed.

(** C7: past the HTTPS redirect, a request whose URI is not exactly "/" is
    answered, whatever its method, remote address and the world, by the one
    call [http.Redirect(w, r, "/", 302)]: no file is read, tailscaled is not
    asked and no template is executed. *)
Theorem root_path_redirect flags tmpl r :
  pastHTTPSRedirect flags r ->
  http.RequestURI r <> "/" ->
  root flags tmpl r = ([CRedirect "/" 302], Some tt)
  /\ statusCode (trace (root flags tmpl r)) = 302.
Proof.
  intros Hs Hu.
  assert (E : root flags tmpl r = ([CRedirect "/" 302], Some tt)).
  { unfold root. rewrite (pastHTTPSRedirect_test _ _ Hs).
    apply String.eqb_neq in Hu. rewrite Hu. reflexivity. }
  split; [exact E|]. now rewrite E.
Qed.

(** C8: a request without TLS, when an HTTPS address is configured, is
    redirected with 302 to "https://" and its host, or to
    "https://hello.ipn.dev" when "100.101.102.103" occurs in the host. *)
Theorem root_https_redirect flags tmpl r :
  http.TLS r = None ->
  httpsAddr flags <> "" ->
  ((exists a b, http.Host r = a ++ "100.101.102.103" ++ b) ->
   root flags tmpl r = ([CRedirect "https://hello.ipn.dev" 302], Some tt))
  /\ (~ (exists a b, http.Host r = a ++ "100.101.102.103" ++ b) ->
      root flags tmpl r = ([CRedirect ("https://" ++ http.Host r) 302], Some tt))
  /\ statusCode (trace (root flags tmpl r)) = 302.
Proof.
  intros Ht Hs. unfold root. rewrite Ht.
  apply String.eqb_neq in Hs. rewrite Hs. cbn [negb andb].
  pose proof (strings_facts.Contains_spec (http.Host r) "100.101.102.103") as C.
  destruct (strings.Contains (http.Host r) "100.101.102.103").
  - split; [reflexivity|]. split; [|reflexivity].
    intros N. exfalso. apply N, C. reflexivity.
  - split; [|split; reflexivity].
    intros H. apply C in H. discriminate.
Qed.

(** C9: at the split of the remote address, a well-formed "host:port" (or
    "[host]:port") yields the host without error, and [root] goes on to the
    template and the lookup with it, sending neither a redirect nor "no
    remote addr"; an address that does not split, as every address without a
    colon, is answered 500 "no remote addr" and nothing else is done. *)
Theorem address_extract flags tmpl r :
  reachesAddressExtract flags r ->
  (forall host port,
     hostPort (http.RemoteAddr r) host port ->
     net.SplitHostPort (http.RemoteAddr r) = Ok (host, port)
     /\ root flags tmpl r = rootWithIP flags tmpl host
     /\ Forall (fun c => (forall url code, c <> CRedirect url code) /\
                         (forall code, c <> CError "no remote addr" code))
               (trace (root flags tmpl r)))
  /\ (forall e,
        net.SplitHostPort (http.RemoteAddr r) = Err e ->
        root flags tmpl r = ([CError "no remote addr" 500], Some tt)
        /\ statusCode (trace (root flags tmpl r)) = 500)
  /\ (~ occurs ":"%char (http.RemoteAddr r) ->
      exists e, net.SplitHostPort (http.RemoteAddr r) = Err e).
Proof.
  intros Ha. rewrite (root_at_address_extract _ _ _ Ha). split; [|split].
  - intros host port Hw.
    assert (S : net.SplitHostPort (http.RemoteAddr r) = Ok (host, port)).
    { destruct Hw as [host port Hh Hp|host port Hh Hp].
      - apply SplitHostPort_plain; (apply Hh || apply Hp); cbn; auto.
      - apply SplitHostPort_bracketed; (apply Hh || apply Hp); cbn; auto. }
    rewrite S. split; [reflexivity|]. split; [reflexivity|].
    eapply Forall_impl; [|apply rootWithIP_calls].
    intros c Hc. destruct c; cbn in Hc; split; intros; try discriminate; try tauto.
    intros C. injection C as -> _.
    destruct Hc as [_ [Hc|[_ [s [x [_ [_ Hc]]]]]]]; discriminate.
  - intros e S. rewrite S. split; reflexivity.
  - intros N. rewrite (SplitHostPort_no_colon _ N). unfold net.addrErr. eauto.
Qed.

(** C10: in dev mode, when the template file cannot be read the process
    ends with [log.Fatal] and the client gets no answer; a 500 "template
    error" is sent only when the file was read and its text did not parse,
    and then it is sent. *)
Theorem dev_read_failure_is_fatal flags tmpl r ip port :
  devMode flags = true ->
  reachesAddressExtract flags r ->
  net.SplitHostPort (http.RemoteAddr r) = Ok (ip, port) ->
  (forall err,
     ReadFile "hello.tmpl.html" = Err err ->
     root flags tmpl r = ([CReadFile "hello.tmpl.html"; CFatal err], None))
  /\ (forall msg code,
        In (CError msg code) (trace (root flags tmpl r)) ->
        prefix "template error: " msg = true ->
        code = 500 /\
        exists s e, ReadFile "hello.tmpl.html" = Ok s /\ Parse "home" s = Err e /\
                    msg = "template error: " ++ e)
  /\ (forall s e,
        ReadFile "hello.tmpl.html" = Ok s -> Parse "home" s = Err e ->
        root flags tmpl r =
          ([CReadFile "hello.tmpl.html"; CHeaderSet "Content-Type" "text/plain";
            CError ("template error: " ++ e) 500], Some tt)).
Proof.
  intros D Ha Hp. rewrite (root_at_address_extract _ _ _ Ha), Hp.
  split; [|split].
  - intros err R. unfold rootWithIP, getTmpl, slurpHTML. rewrite D, R. reflexivity.
  - intros msg code Hin Hpre.
    pose proof (rootWithIP_calls flags tmpl ip) as Q.
    rewrite Forall_forall in Q. specialize (Q _ Hin). cbn in Q.
    destruct Q as [Hc [Q|[_ [s [e [R [P E]]]]]]].
    + subst msg. discriminate.
    + split; [exact Hc|]. exists s, e. auto.
  - intros s e R P. unfold rootWithIP, getTmpl, slurpHTML. rewrite D, R. cbn.
    rewrite P. reflexivity.
Qed.

End Properties.

(** C5, as amended: the process is in dev mode exactly when no HTTPS address
    is configured and an HTTP address is. *)
Theorem devMode_iff flags :
  devMode flags = true <-> httpsAddr flags = "" /\ httpAddr flags <> "".
Proof.
  unfold devMode. rewrite andb_true_iff, negb_true_iff.
  rewrite String.eqb_eq, String.eqb_neq. reflexivity.
Qed.

(** C5 fails as stated: the mode does not depend on the HTTPS address alone; with neither
    address configured the HTTPS address is empty and the process is not in
    dev mode. *)
Lemma devMode_not_by_https_only :
  ~ devModeByHTTPSOnly {| httpAddr := ""; httpsAddr := ""; testIP := "" |}.
Proof.
  unfold devModeByHTTPSOnly. cbn. intros [_ H]. specialize (H eq_refl). discriminate.
Qed.

(** C6 fails as stated: a failure of the template's execution is not
    answered 500; the error that [Execute] returns is dropped and the status
    stays 200. *)
Lemma execute_failure_not_reported :
  snd (@ExecuteTemplate prodWorldExecFails "<html>"
         {| DisplayName := "Foo Barberson"; LoginName := "foo@bar.com";
            ProfilePicURL := "https://x/y.png"; MachineName := "imac5k";
            MachineOS := "Linux"; IP := "100.2.3.4" |})
    = Some "template: home: write: broken pipe"
  /\ @root prodWorldExecFails defaultFlags "<html>"
        (exampleRequest true "hello.ipn.dev" "/" "100.2.3.4:51234")
      = ([CLocalTCPPortAndToken; CDo exampleWhoIsRequest;
          CHeaderSet "Content-Type" "text/html; charset=utf-8";
          @CExecute prodWorldExecFails "<html>"
            {| DisplayName := "Foo Barberson"; LoginName := "foo@bar.com";
               ProfilePicURL := "https://x/y.png"; MachineName := "imac5k";
               MachineOS := "Linux"; IP := "100.2.3.4" |}], Some tt)
  /\ @statusCode prodWorldExecFails
        (trace (@root prodWorldExecFails defaultFlags "<html>"
                  (exampleRequest true "hello.ipn.dev" "/" "100.2.3.4:51234")))
      = 200.
Proof.
  split; [reflexivity|]. split; vm_compute; reflexivity.
Qed.

(** ** The properties at concrete requests *)

Lemma noneOf_example_host : noneOf [":"; "["; "]"]%char "100.2.3.4".
Proof.
  intros c [<-|[<-|[<-|[]]]]; cbn; intuition discriminate.
Defined.

Lemma noneOf_example_port : noneOf [":"; "["; "]"]%char "51234".
Proof.
  intros c [<-|[<-|[<-|[]]]]; cbn; intuition discriminate.
Defined.

Lemma root_resolved_record_witness :
  @reachesResolve prodWorld defaultFlags "<html>"
    (exampleRequest true "hello.ipn.dev" "/" "100.2.3.4:51234")
    "100.2.3.4" "<html>" []
  /\ @whoIs prodWorld "100.2.3.4"
     = ([CLocalTCPPortAndToken; CDo exampleWhoIsRequest], Some (Ok exampleWho))
  /\ @root prodWorld defaultFlags "<html>"
       (exampleRequest true "hello.ipn.dev" "/" "100.2.3.4:51234")
     = ([CLocalTCPPortAndToken; CDo exampleWhoIsRequest;
         CHeaderSet "Content-Type" "text/html; charset=utf-8";
         @CExecute prodWorld "<html>"
           {| DisplayName := "Foo Barberson"; LoginName := "foo@bar.com";
              ProfilePicURL := "https://x/y.png"; MachineName := "imac5k";
              MachineOS := "Linux"; IP := "100.2.3.4" |}], Some tt).
Proof.
  assert (Hr : @reachesResolve prodWorld defaultFlags "<html>"
                 (exampleRequest true "hello.ipn.dev" "/" "100.2.3.4:51234")
                 "100.2.3.4" "<html>" []).
  { split; [split; [left; discriminate|reflexivity]|].
    split; [exists "51234"; vm_compute; reflexivity|reflexivity]. }
  assert (Hw : @whoIs prodWorld "100.2.3.4"
               = ([CLocalTCPPortAndToken; CDo exampleWhoIsRequest], Some (Ok exampleWho))).
  { vm_compute. reflexivity. }
  split; [exact Hr|]. split; [exact Hw|].
  exact (proj2 (proj2 (proj2
    (@root_resolved_record prodWorld defaultFlags "<html>" _ _ _ _ _ _ Hr Hw)))
    eq_refl eq_refl).
Defined.

Lemma dev_lookup_failure_uses_fake_data_witness :
  devMode devFlags = true
  /\ @reachesResolve devWorld devFlags "<unused>"
       (exampleRequest false "localhost:8080" "/" "100.2.3.4:51234")
       "100.2.3.4" "<html>" [CReadFile "hello.tmpl.html"]
  /\ @root devWorld devFlags "<unused>"
       (exampleRequest false "localhost:8080" "/" "100.2.3.4:51234")
     = ([CReadFile "hello.tmpl.html"; CLocalTCPPortAndToken; CDo exampleWhoIsRequest;
         CPrintf ("warning: using fake data in dev mode due to whois lookup error: "
                  ++ "dial unix: connect: no such file or directory");
         CHeaderSet "Content-Type" "text/html; charset=utf-8";
         @CExecute devWorld "<html>" fakeData], Some tt)
  /\ @statusCode devWorld
       (trace (@root devWorld devFlags "<unused>"
                 (exampleRequest false "localhost:8080" "/" "100.2.3.4:51234"))) = 200.
Proof.
  assert (Hr : @reachesResolve devWorld devFlags "<unused>"
                 (exampleRequest false "localhost:8080" "/" "100.2.3.4:51234")
                 "100.2.3.4" "<html>" [CReadFile "hello.tmpl.html"]).
  { split; [split; [right; reflexivity|reflexivity]|].
    split; [exists "51234"; vm_compute; reflexivity|reflexivity]. }
  assert (Hw : @whoIs devWorld "100.2.3.4"
               = ([CLocalTCPPortAndToken; CDo exampleWhoIsRequest],
                  Some (Err "dial unix: connect: no such file or directory"))).
  { vm_compute. reflexivity. }
  pose proof (@dev_lookup_failure_uses_fake_data devWorld devFlags "<unused>"
                _ _ _ _ _ _ eq_refl Hr Hw) as [E [S _]].
  split; [reflexivity|]. split; [exact Hr|]. split; [exact E|exact S].
Defined.

Lemma production_lookup_failure_500_witness :
  devMode defaultFlags = false
  /\ @reachesResolve prodWorldDown defaultFlags "<html>"
       (exampleRequest true "hello.ipn.dev" "/" "100.2.3.4:51234")
       "100.2.3.4" "<html>" []
  /\ @root prodWorldDown defaultFlags "<html>"
       (exampleRequest true "hello.ipn.dev" "/" "100.2.3.4:51234")
     = ([CLocalTCPPortAndToken; CDo exampleWhoIsRequest;
         CPrintf ("whois(" ++ quoted "100.2.3.4" ++ ") error: "
                  ++ "dial unix: connect: no such file or directory");
         CError "Your Tailscale works, but we failed to look you up." 500], Some tt)
  /\ @statusCode prodWorldDown
       (trace (@root prodWorldDown defaultFlags "<html>"
                 (exampleRequest true "hello.ipn.dev" "/" "100.2.3.4:51234"))) = 500.
Proof.
  assert (Hr : @reachesResolve prodWorldDown defaultFlags "<html>"
                 (exampleRequest true "hello.ipn.dev" "/" "100.2.3.4:51234")
                 "100.2.3.4" "<html>" []).
  { split; [split; [left; discriminate|reflexivity]|].
    split; [exists "51234"; vm_compute; reflexivity|reflexivity]. }
  assert (Hw : @whoIs prodWorldDown "100.2.3.4"
               = ([CLocalTCPPortAndToken; CDo exampleWhoIsRequest],
                  Some (Err "dial unix: connect: no such file or directory"))).
  { vm_compute. reflexivity. }
  pose proof (@production_lookup_failure_500 prodWorldDown defaultFlags "<html>"
                _ _ _ _ _ _ eq_refl Hr Hw) as [E [S _]].
  split; [reflexivity|]. split; [exact Hr|]. split; [exact E|exact S].
Defined.

Lemma whoIs_decode_error_bounded_witness :
  len longBody = 250
  /\ exists shown rest,
       @whoIs prodWorldLongBody "100.2.3.4"
       = ([CLocalTCPPortAndToken; CDo exampleWhoIsRequest],
          Some (Err ("failed to parse JSON WhoIsResponse from " ++ quoted shown)))
       /\ longBody = shown ++ rest
       /\ len shown = 200.
Proof.
  split; [reflexivity|].
  destruct (@whoIs_decode_error_bounded prodWorldLongBody "100.2.3.4"
              exampleWhoIsRequest
              {| http.Status := "200 OK"; http.StatusCode := 200; http.Body := longBody |}
              "invalid character" eq_refl eq_refl eq_refl eq_refl)
    as [shown [rest [E [B [_ [L _]]]]]].
  exists shown, rest. split; [exact E|]. split; [exact B|].
  apply L. reflexivity.
Defined.

Lemma template_error_500_witness :
  @getTmpl devWorldBadTemplate devFlags "<unused>"
  = ([CReadFile "hello.tmpl.html"], Some (Err "template: home: unexpected EOF"))
  /\ @root devWorldBadTemplate devFlags "<unused>"
       (exampleRequest false "localhost:8080" "/" "100.2.3.4:51234")
     = ([CReadFile "hello.tmpl.html"; CHeaderSet "Content-Type" "text/plain";
         CError "template error: template: home: unexpected EOF" 500], Some tt)
  /\ @statusCode devWorldBadTemplate
       (trace (@root devWorldBadTemplate devFlags "<unused>"
                 (exampleRequest false "localhost:8080" "/" "100.2.3.4:51234"))) = 500.
Proof.
  assert (Ha : reachesAddressExtract devFlags
                 (exampleRequest false "localhost:8080" "/" "100.2.3.4:51234")).
  { split; [right; reflexivity|reflexivity]. }
  assert (Hp : net.SplitHostPort
                 (http.RemoteAddr (exampleRequest false "localhost:8080" "/" "100.2.3.4:51234"))
               = Ok ("100.2.3.4", "51234")).
  { vm_compute. reflexivity. }
  pose proof (@template_error_500 devWorldBadTemplate devFlags "<unused>" _ _ _
                [CReadFile "hello.tmpl.html"] "template: home: unexpected EOF"
                Ha Hp eq_refl) as [E [S _]].
  split; [reflexivity|]. split; [exact E|exact S].
Defined.

Lemma root_path_redirect_witness :
  pastHTTPSRedirect defaultFlags (exampleRequest true "hello.ipn.dev" "//" "100.2.3.4:51234")
  /\ @root prodWorld defaultFlags "<html>"
       (exampleRequest true "hello.ipn.dev" "//" "100.2.3.4:51234")
     = ([CRedirect "/" 302], Some tt).
Proof.
  assert (Hs : pastHTTPSRedirect defaultFlags
                 (exampleRequest true "hello.ipn.dev" "//" "100.2.3.4:51234")).
  { left. discriminate. }
  split; [exact Hs|].
  refine (proj1 (@root_path_redirect prodWorld defaultFlags "<html>" _ Hs _)).
  discriminate.
Defined.

Lemma root_https_redirect_witness :
  @root prodWorld defaultFlags "<html>"
    (exampleRequest false "100.101.102.103:80" "/" "100.2.3.4:51234")
  = ([CRedirect "https://hello.ipn.dev" 302], Some tt)
  /\ @root prodWorld defaultFlags "<html>"
       (exampleRequest false "hello.ipn.dev" "/" "100.2.3.4:51234")
     = ([CRedirect "https://hello.ipn.dev" 302], Some tt)
  /\ @root prodWorld defaultFlags "<html>"
       (exampleRequest false "example.com" "/foo" "100.2.3.4:51234")
     = ([CRedirect "https://example.com" 302], Some tt).
Proof.
  assert (Hs : httpsAddr defaultFlags <> "") by discriminate.
  split; [|split].
  - refine (proj1 (@root_https_redirect prodWorld defaultFlags "<html>"
                     (exampleRequest false "100.101.102.103:80" "/" "100.2.3.4:51234")
                     eq_refl Hs) _).
    exists "", ":80". reflexivity.
  - pose proof (@root_https_redirect prodWorld defaultFlags "<html>"
                  (exampleRequest false "hello.ipn.dev" "/" "100.2.3.4:51234")
                  eq_refl Hs) as [_ [H _]].
    apply H. intros [a [b E]].
    pose proof (proj2 (strings_facts.Contains_spec "hello.ipn.dev" "100.101.102.103")
                  (ex_intro _ a (ex_intro _ b E))) as C.
    vm_compute in C. discriminate.
  - pose proof (@root_https_redirect prodWorld defaultFlags "<html>"
                  (exampleRequest false "example.com" "/foo" "100.2.3.4:51234")
                  eq_refl Hs) as [_ [H _]].
    apply H. intros [a [b E]].
    pose proof (proj2 (strings_facts.Contains_spec "example.com" "100.101.102.103")
                  (ex_intro _ a (ex_intro _ b E))) as C.
    vm_compute in C. discriminate.
Defined.

Lemma address_extract_witness :
  reachesAddressExtract defaultFlags
    (exampleRequest true "hello.ipn.dev" "/" "100.2.3.4:51234")
  /\ hostPort "100.2.3.4:51234" "100.2.3.4" "51234"
  /\ net.SplitHostPort "100.2.3.4:51234" = Ok ("100.2.3.4", "51234")
  /\ @root prodWorld defaultFlags "<html>"
       (exampleRequest true "hello.ipn.dev" "/" "100.2.3.4:51234")
     = @rootWithIP prodWorld defaultFlags "<html>" "100.2.3.4"
  /\ @root prodWorld defaultFlags "<html>"
       (exampleRequest true "hello.ipn.dev" "/" "100.2.3.4")
     = ([CError "no remote addr" 500], Some tt).
Proof.
  assert (Ha : forall remote, reachesAddressExtract defaultFlags
                 (exampleRequest true "hello.ipn.dev" "/" remote)).
  { intros remote. split; [left; discriminate|reflexivity]. }
  assert (Hw : hostPort "100.2.3.4:51234" "100.2.3.4" "51234").
  { exact (hostPort_plain "100.2.3.4" "51234" noneOf_example_host noneOf_example_port). }
  destruct (proj1 (@address_extract prodWorld defaultFlags "<html>" _ (Ha "100.2.3.4:51234"))
              _ _ Hw) as [S [E _]].
  destruct (proj1 (proj2 (@address_extract prodWorld defaultFlags "<html>" _ (Ha "100.2.3.4")))
              "address 100.2.3.4: missing port in address" eq_refl) as [E' _].
  split; [apply Ha|]. split; [exact Hw|]. split; [exact S|]. split; [exact E|exact E'].
Defined.

Lemma dev_read_failure_is_fatal_witness :
  devMode devFlags = true
  /\ @ReadFile devWorldNoFile "hello.tmpl.html"
     = Err "open hello.tmpl.html: no such file or directory"
  /\ @root devWorldNoFile devFlags "<unused>"
       (exampleRequest false "localhost:8080" "/" "100.2.3.4:51234")
     = ([CReadFile "hello.tmpl.html";
         CFatal "open hello.tmpl.html: no such file or directory"], None).
Proof.
  assert (Ha : reachesAddressExtract devFlags
                 (exampleRequest false "localhost:8080" "/" "100.2.3.4:51234")).
  { split; [right; reflexivity|reflexivity]. }
  assert (Hp : net.SplitHostPort
                 (http.RemoteAddr (exampleRequest false "localhost:8080" "/" "100.2.3.4:51234"))
               = Ok ("100.2.3.4", "51234")).
  { vm_compute. reflexivity. }
  split; [reflexivity|]. split; [reflexivity|].
  exact (proj1 (@dev_read_failure_is_fatal devWorldNoFile devFlags "<unused>" _ _ _
                  eq_refl Ha Hp) _ eq_refl).
Defined.

(** ** Further facts about the string primitives *)

Lemma IndexByte_spec s c :
  (strings.IndexByte s c = -1 /\ ~ occurs c s) \/
  (exists a b, s = a ++ String c b /\ len a = strings.IndexByte s c /\ ~ occurs c a).
Proof.
  induction s as [|x s IH]; cbn [strings.IndexByte occurs].
  - left. tauto.
  - destruct (Ascii.eqb_spec x c) as [->|N].
    + right. exists "", s. repeat split. tauto.
    + destruct IH as [[E A]|[a [b [Es [La Na]]]]].
      * left. rewrite E. cbn. tauto.
      * right. exists (String x a), b. rewrite <- La.
        pose proof (len_nonneg a) as Hl.
        destruct (len a <? 0) eqn:L; [apply Z.ltb_lt in L; lia|].
        split; [cbn; now rewrite <- Es|]. split; [apply len_String|].
        cbn. tauto.
Qed.

Lemma LastIndexByte_spec s c :
  (strings.LastIndexByte s c = -1 /\ ~ occurs c s) \/
  (exists a b, s = a ++ String c b /\ len a = strings.LastIndexByte s c /\ ~ occurs c b).
Proof.
  induction s as [|x s IH]; cbn [strings.LastIndexByte occurs].
  - left. tauto.
  - destruct IH as [[E A]|[a [b [Es [La Nb]]]]].
    + rewrite E. cbn. destruct (Ascii.eqb_spec x c) as [->|N].
      * right. exists "", s. repeat split. exact A.
      * left. tauto.
    + right. exists (String x a), b. rewrite <- La.
      pose proof (len_nonneg a) as Hl.
      destruct (0 <=? len a) eqn:L; [|apply Z.leb_gt in L; lia].
      split; [cbn; now rewrite <- Es|]. split; [apply len_String|exact Nb].
Qed.

Lemma append_inj_len a b x y :
  a ++ x = b ++ y -> len a = len b -> a = b /\ x = y.
Proof.
  revert b. induction a as [|c a IH]; intros [|d b] E L.
  - auto.
  - rewrite len_String in L. change (len "") with 0 in L.
    pose proof (len_nonneg b). lia.
  - rewrite len_String in L. change (len "") with 0 in L.
    pose proof (len_nonneg a). lia.
  - cbn in E. injection E as -> E. rewrite !len_String in L.
    destruct (IH b E) as [-> ->]; [lia|]. auto.
Qed.

Lemma found_leb s c : (0 <=? strings.IndexByte s c) = false -> ~ occurs c s.
Proof.
  intros H. destruct (IndexByte_spec s c) as [[_ N]|[a [b [_ [L _]]]]]; [exact N|].
  apply Z.leb_gt in H. pose proof (len_nonneg a). lia.
Qed.

Lemma byteAt_head s c :
  isByte (byteAt s 0) c = true -> exists t, s = String c t.
Proof.
  destruct s as [|a s]; cbn; [discriminate|].
  destruct (Ascii.eqb_spec a c) as [->|]; [eauto|discriminate].
Qed.

(** [net.SplitHostPort] succeeds on the well-formed addresses only. *)
Lemma SplitHostPort_hostPort hp h p :
  net.SplitHostPort hp = Ok (h, p) -> hostPort hp h p.
Proof.
  unfold net.SplitHostPort.
  destruct (LastIndexByte_spec hp ":") as [[E _]|[a [b [Es [La Nb]]]]].
  { rewrite E. cbn. discriminate. }
  rewrite <- La. pose proof (len_nonneg a) as Hla.
  destruct (len a <? 0) eqn:L0; [apply Z.ltb_lt in L0; lia|clear L0].
  destruct (isByte (byteAt hp 0) "[") eqn:B.
  - apply byteAt_head in B. destruct B as [t Ht].
    destruct (IndexByte_spec hp "]") as [[E _]|[a' [b' [Es' [La' Na']]]]].
    { rewrite E. cbn. discriminate. }
    rewrite <- La'. pose proof (len_nonneg a') as Hla'.
    destruct (len a' <? 0) eqn:L1; [apply Z.ltb_lt in L1; lia|clear L1].
    destruct (len a' + 1 =? len hp); [discriminate|].
    destruct (len a' + 1 =? len a) eqn:L2;
      [apply Z.eqb_eq in L2|destruct (isByte _ _); discriminate].
    destruct a' as [|x h'].
    { rewrite Es' in Ht. cbn in Ht. discriminate. }
    assert (x = "["%char) as -> by (rewrite Es' in Ht; cbn in Ht; congruence).
    assert (Sp : a = String "["%char h' ++ "]" /\ String ":"%char b = b').
    { apply append_inj_len.
      - rewrite <- Es, Es', append_assoc. reflexivity.
      - rewrite len_append. change (len "]") with 1. lia. }
    destruct Sp as [-> <-].
    assert (Hp : hp = "[" ++ h' ++ "]:" ++ b) by (rewrite Es'; reflexivity).
    unfold net.splitTail.
    assert (S1 : slice hp 1 (len hp) = h' ++ "]:" ++ b)
      by (rewrite Hp at 1; apply slice_from; [reflexivity|now rewrite Hp]).
    assert (S2 : slice hp (len (String "["%char h') + 1) (len hp) = ":" ++ b).
    { rewrite Hp at 1.
      replace ("[" ++ h' ++ "]:" ++ b) with (("[" ++ h' ++ "]") ++ ":" ++ b)
        by (cbn; rewrite ?append_assoc; reflexivity).
      apply slice_from.
      - change ("[" ++ h' ++ "]") with (String "["%char (h' ++ "]")).
        rewrite !len_String, len_append. change (len "]") with 1. lia.
      - rewrite Hp. cbn; rewrite ?append_assoc; reflexivity. }
    assert (S3 : slice hp (len (String "["%char h' ++ "]") + 1) (len hp) = b).
    { rewrite Hp at 1.
      replace ("[" ++ h' ++ "]:" ++ b) with (("[" ++ h' ++ "]:") ++ b)
        by (cbn; rewrite ?append_assoc; reflexivity).
      apply slice_from.
      - change ("[" ++ h' ++ "]:") with (String "["%char (h' ++ "]:")).
        cbn [append]. rewrite !len_String, !len_append.
        change (len "]") with 1. change (len "]:") with 2. lia.
      - rewrite Hp. cbn; rewrite ?append_assoc; reflexivity. }
    assert (S4 : slice hp 1 (len (String "["%char h')) = h').
    { rewrite Hp. apply (slice_mid "[" h' ("]:" ++ b)); [reflexivity|].
      rewrite len_String. change (len "[") with 1. lia. }
    rewrite S1, S2, S3, S4.
    destruct (0 <=? strings.IndexByte (h' ++ "]:" ++ b) "[") eqn:T1; [discriminate|].
    destruct (0 <=? strings.IndexByte (":" ++ b) "]") eqn:T2; [discriminate|].
    intros H. injection H as <- <-.
    apply found_leb in T1. apply found_leb in T2.
    rewrite occurs_append in T1. cbn in T1, T2, Na'.
    rewrite Hp. constructor.
    + intros c [<-|[<-|[]]]; tauto.
    + intros c [<-|[<-|[<-|[]]]]; tauto.
  - assert (S0 : slice hp 0 (len a) = a) by (rewrite Es; apply slice_prefix).
    cbv zeta. rewrite S0.
    destruct (0 <=? strings.IndexByte a ":") eqn:T0; [discriminate|].
    unfold net.splitTail. rewrite slice_full.
    destruct (0 <=? strings.IndexByte hp "[") eqn:T1; [discriminate|].
    destruct (0 <=? strings.IndexByte hp "]") eqn:T2; [discriminate|].
    assert (S3 : slice hp (len a + 1) (len hp) = b).
    { rewrite Es at 1.
      replace (a ++ String ":"%char b) with ((a ++ ":") ++ b)
        by (rewrite append_assoc; reflexivity).
      apply slice_from.
      - rewrite len_append. reflexivity.
      - rewrite Es, append_assoc. reflexivity. }
    rewrite S3. intros H. injection H as <- <-.
    apply found_leb in T0. apply found_leb in T1. apply found_leb in T2.
    rewrite Es in T1, T2. rewrite occurs_append in T1, T2. cbn in T1, T2.
    rewrite Es. change (a ++ String ":"%char b) with (a ++ ":" ++ b). constructor.
    + intros c [<-|[<-|[<-|[]]]]; tauto.
    + intros c [<-|[<-|[<-|[]]]]; tauto.
Qed.

Lemma hostPort_SplitHostPort hp h p :
  hostPort hp h p -> net.SplitHostPort hp = Ok (h, p).
Proof.
  intros [host port Hh Hp|host port Hh Hp].
  - apply SplitHostPort_plain; (apply Hh || apply Hp); cbn; auto.
  - apply SplitHostPort_bracketed; (apply Hh || apply Hp); cbn; auto.
Qed.

Lemma uint_digits c d :
  In c [":"; "["; "]"; "-"]%char -> ~ occurs c (NilEmpty.string_of_uint d).
Proof.
  intros Hc. induction d; cbn; try tauto;
    (intros [E|O]; [|tauto]; subst c; cbn in Hc; intuition discriminate).
Qed.

Lemma Itoa_digits c i :
  In c [":"; "["; "]"]%char -> ~ occurs c (strconv.Itoa i).
Proof.
  intros Hc.
  assert (Hc' : In c [":"; "["; "]"; "-"]%char) by (cbn in *; tauto).
  assert (U : forall d, ~ occurs c (NilZero.string_of_uint d)).
  { intros d. pose proof (uint_digits c d Hc') as U. destruct d; try exact U.
    cbn. intros [E|[]]. subst c. cbn in Hc. intuition discriminate. }
  unfold strconv.Itoa. destruct (Z.to_int i) as [d|d]; cbn [NilZero.string_of_int].
  - apply U.
  - cbn [occurs]. intros [E|O]; [|exact (U d O)].
    subst c. cbn in Hc. intuition discriminate.
Qed.

(** ** More properties of [firstLabel], [whoIs] and [root] *)

(** [firstLabel s] is the longest prefix of [s] without a period: what
    follows it in [s] is nothing or begins with a period. *)
Theorem firstLabel_longest_prefix s :
  exists rest,
    s = firstLabel s ++ rest
    /\ ~ occurs "."%char (firstLabel s)
    /\ (rest = "" \/ exists rest', rest = "." ++ rest').
Proof.
  destruct (IndexByte_spec s ".") as [[_ N]|[a [b [Es [_ Na]]]]].
  - exists "". rewrite (firstLabel_no_period s N), append_nil_r. auto.
  - exists ("." ++ b). change (String "."%char b) with ("." ++ b) in Es.
    rewrite Es at 2 3. rewrite (firstLabel_period a b Na).
    split; [exact Es|]. split; [exact Na|]. right. eauto.
Qed.

(** The label is empty exactly for the empty name and for names that begin
    with a period. *)
Theorem firstLabel_empty_iff s :
  firstLabel s = "" <-> s = "" \/ exists t, s = "." ++ t.
Proof.
  split.
  - intros E. destruct (IndexByte_spec s ".") as [[_ N]|[a [b [Es [_ Na]]]]].
    + rewrite (firstLabel_no_period s N) in E. now left.
    + change (String "."%char b) with ("." ++ b) in Es. right. exists b.
      rewrite Es in E. rewrite (firstLabel_period a b Na) in E.
      now rewrite E in Es.
  - intros [->|[t ->]]; [reflexivity|].
    apply (firstLabel_period "" t). cbn. tauto.
Qed.

(** Cutting twice cuts no more, and the label is never longer than the
    name. *)
Theorem firstLabel_idempotent s :
  firstLabel (firstLabel s) = firstLabel s /\ len (firstLabel s) <= len s.
Proof.
  destruct (IndexByte_spec s ".") as [[_ N]|[a [b [Es [_ Na]]]]].
  - rewrite !(firstLabel_no_period s N). split; [reflexivity|lia].
  - change (String "."%char b) with ("." ++ b) in Es. rewrite Es.
    rewrite (firstLabel_period a b Na), (firstLabel_no_period a Na).
    split; [reflexivity|]. rewrite len_append.
    pose proof (len_nonneg ("." ++ b)). lia.
Qed.

Section MoreProperties.

Context {W : World}.

Lemma whoIs_cases ip :
  (exists e, NewRequestWithContext "GET" (whoIsURL ip) = Err e /\
             whoIs ip = ([], Some (Err e)))
  \/ (exists req v,
        NewRequestWithContext "GET" (whoIsURL ip) = Ok req /\
        whoIs ip = ([CLocalTCPPortAndToken; CDo (setLocalAuth req)], Some v) /\
        match ClientDo (setLocalAuth req) with
        | Err e => v = Err e
        | Ok res =>
            if http.StatusCode res =? 200 then
              match Unmarshal (http.Body res) with
              | Ok w => v = Ok w
              | Err _ =>
                  exists shown,
                    v = Err ("failed to parse JSON WhoIsResponse from " ++ Quote shown)
                    /\ len shown <= 200
              end
            else v = Err ("HTTP " ++ http.Status res ++ ": " ++ http.Body res)
        end).
Proof.
  unfold whoIs, whoIsURL.
  destruct (NewRequestWithContext "GET" _) as [req|e]; [right|left; eauto].
  destruct (ClientDo (setLocalAuth req)) as [res|e] eqn:D; cbn; rewrite ?D; cbn.
  - destruct (http.StatusCode res =? 200) eqn:S; cbn.
    + destruct (Unmarshal (http.Body res)) as [w|e'] eqn:U; cbn.
      * eexists req, _. split; [reflexivity|]. split; [reflexivity|].
        rewrite D, S, U. reflexivity.
      * eexists req, _. split; [reflexivity|]. split; [reflexivity|].
        rewrite D, S, U. eexists. split; [reflexivity|].
        destruct (200 <? len (http.Body res)) eqn:L.
        -- apply Z.ltb_lt in L.
           destruct (slice_split (http.Body res) 200) as [rest [_ Ls]]; lia.
        -- now apply Z.ltb_ge in L.
    + eexists req, _. split; [reflexivity|]. split; [reflexivity|].
      rewrite D, S. reflexivity.
  - eexists req, _. split; [reflexivity|]. split; [reflexivity|].
    rewrite D. reflexivity.
Qed.

(** [whoIs] succeeds exactly when the request could be built, tailscaled
    replied, the status was 200 and the body decoded; a body that decodes
    under another status is not a success. *)
Theorem whoIs_ok_iff ip w :
  snd (whoIs ip) = Some (Ok w) <->
  exists req res,
    NewRequestWithContext "GET" (whoIsURL ip) = Ok req
    /\ ClientDo (setLocalAuth req) = Ok res
    /\ http.StatusCode res = 200
    /\ Unmarshal (http.Body res) = Ok w.
Proof.
  destruct (whoIs_cases ip) as [[e [N E]]|[req [v [N [E C]]]]]; rewrite E; cbn [snd fst trace In].
  - split; [discriminate|]. intros [req [res [N' _]]]. congruence.
  - split.
    + intros H. injection H as ->. exists req.
      destruct (ClientDo (setLocalAuth req)) as [res|e]; [|discriminate].
      exists res. destruct (http.StatusCode res =? 200) eqn:S; [|discriminate].
      apply Z.eqb_eq in S.
      destruct (Unmarshal (http.Body res)) as [w'|e'].
      * injection C as ->. auto.
      * destruct C as [shown [C _]]. discriminate.
    + intros [req' [res [N' [D [S U]]]]].
      assert (req' = req) as -> by congruence.
      rewrite D in C. apply Z.eqb_eq in S. rewrite S, U in C. now subst v.
Qed.


(** [whoIs] never ends the process and asks tailscaled at most once, with
    no retry: it makes no call at all when the request cannot be built, and
    otherwise reads the local token and does one round trip. *)
Theorem whoIs_one_round_trip ip :
  exists v, snd (whoIs ip) = Some v
  /\ ((trace (whoIs ip) = [] /\ exists e, v = Err e)
      \/ exists req, trace (whoIs ip) = [CLocalTCPPortAndToken; CDo req]).
Proof.
  destruct (whoIs_cases ip) as [[e [N E]]|[req [v [N [E C]]]]]; rewrite E; cbn [snd fst trace In].
  - exists (Err e). split; [reflexivity|]. left. eauto.
  - exists v. split; [reflexivity|]. right. eauto.
Qed.

(** The request [whoIs] sends is the one built for the whois URL, with the
    local token, when there is one, as basic-auth password under an empty
    user name, and otherwise as it was built. *)
Theorem whoIs_request_auth ip sent :
  In (CDo sent) (trace (whoIs ip)) ->
  exists req,
    NewRequestWithContext "GET" (whoIsURL ip) = Ok req
    /\ http.Method sent = http.Method req
    /\ http.URL sent = http.URL req
    /\ http.Authorization sent =
       match LocalTCPPortAndToken with
       | Ok (_, token) => Some ("", token)
       | Err _ => http.Authorization req
       end.
Proof.
  destruct (whoIs_cases ip) as [[e [N E]]|[req [v [N [E C]]]]]; rewrite E; cbn [snd fst trace In].
  - tauto.
  - intros [H|[H|[]]]; [discriminate|]. injection H as <-.
    exists req. split; [exact N|]. unfold setLocalAuth.
    destruct LocalTCPPortAndToken as [[port token]|e]; auto.
Qed.

Lemma rootWithIP_cases flags tmpl ip :
  (devMode flags = true /\ exists e,
     ReadFile "hello.tmpl.html" = Err e /\
     rootWithIP flags tmpl ip = ([CReadFile "hello.tmpl.html"; CFatal e], None))
  \/ (devMode flags = true /\ exists s e,
        ReadFile "hello.tmpl.html" = Ok s /\ Parse "home" s = Err e /\
        rootWithIP flags tmpl ip =
          ([CReadFile "hello.tmpl.html"; CHeaderSet "Content-Type" "text/plain";
            CError ("template error: " ++ e) 500], Some tt))
  \/ (exists pre t trW v,
        ((devMode flags = false /\ pre = [] /\ t = tmpl)
         \/ (devMode flags = true /\ pre = [CReadFile "hello.tmpl.html"] /\
             exists s, ReadFile "hello.tmpl.html" = Ok s /\ Parse "home" s = Ok t))
        /\ whoIs ip = (trW, Some v)
        /\ rootWithIP flags tmpl ip
           = ((pre ++ trW ++ afterLookup flags t ip v)%list, Some tt)).
Proof.
  destruct (whoIs_returns ip) as [v Hv].
  destruct (whoIs ip) as [trW o] eqn:Hw. cbn in Hv. subst o.
  assert (T : forall pre t,
            getTmpl flags tmpl = (pre, Some (Ok t)) ->
            rootWithIP flags tmpl ip
            = ((pre ++ trW ++ afterLookup flags t ip v)%list, Some tt)).
  { intros pre t G. unfold rootWithIP. rewrite G, Hw. rewrite !bind_value.
    cbn [trace fst snd]. destruct v as [who|err]; [reflexivity|].
    unfold afterLookup. destruct (devMode flags); reflexivity. }
  destruct (getTmpl_cases flags tmpl) as [[D G]|[[D [e [R G]]]|[D [s [R G]]]]].
  - right. right. exists [], tmpl, trW, v. split; [left; auto|]. split; [reflexivity|].
    now apply T.
  - left. split; [exact D|]. exists e. split; [exact R|].
    unfold rootWithIP. rewrite G. reflexivity.
  - destruct (Parse "home" s) as [t|e] eqn:P.
    + right. right. exists [CReadFile "hello.tmpl.html"], t, trW, v.
      split; [right; eauto|]. split; [reflexivity|]. now apply T.
    + right. left. split; [exact D|]. exists s, e. split; [exact R|]. split; [exact P|].
      unfold rootWithIP. rewrite G. reflexivity.
Qed.

Lemma root_cases flags tmpl r :
  (http.TLS r = None /\ httpsAddr flags <> "" /\
   exists h, root flags tmpl r = ([CRedirect ("https://" ++ h) 302], Some tt))
  \/ (pastHTTPSRedirect flags r /\ http.RequestURI r <> "/" /\
      root flags tmpl r = ([CRedirect "/" 302], Some tt))
  \/ (reachesAddressExtract flags r /\
      (forall h p, ~ hostPort (http.RemoteAddr r) h p) /\
      root flags tmpl r = ([CError "no remote addr" 500], Some tt))
  \/ (reachesAddressExtract flags r /\ exists ip port,
        hostPort (http.RemoteAddr r) ip port /\
        root flags tmpl r = rootWithIP flags tmpl ip).
Proof.
  assert (C : pastHTTPSRedirect flags r \/ (http.TLS r = None /\ httpsAddr flags <> "")).
  { unfold pastHTTPSRedirect. destruct (http.TLS r) as [c|]; [left; left; discriminate|].
    destruct (string_dec (httpsAddr flags) ""); [left; right; assumption|right; auto]. }
  destruct C as [Hs|[T A]].
  - right. destruct (string_dec (http.RequestURI r) "/") as [U|U].
    + assert (Ha : reachesAddressExtract flags r) by (split; assumption).
      right. rewrite (root_at_address_extract _ _ _ Ha).
      destruct (net.SplitHostPort (http.RemoteAddr r)) as [[ip port]|e] eqn:S.
      * right. split; [exact Ha|]. exists ip, port.
        split; [now apply SplitHostPort_hostPort|reflexivity].
      * left. split; [exact Ha|]. split; [|reflexivity].
        intros h p H. apply hostPort_SplitHostPort in H. congruence.
    + left. split; [exact Hs|]. split; [exact U|].
      unfold root. rewrite (pastHTTPSRedirect_test _ _ Hs).
      apply String.eqb_neq in U. rewrite U. reflexivity.
  - left. split; [exact T|]. split; [exact A|].
    unfold root. rewrite T. apply String.eqb_neq in A. rewrite A. cbn [negb andb].
    eexists. reflexivity.
Qed.

Ltac root_split flags tmpl r :=
  destruct (root_cases flags tmpl r)
    as [[T [A [h E]]]|[[Hs [U E]]|[[Ha [NH E]]|[Ha [ip [port [HP E]]]]]]].

Ltac rootWithIP_split flags tmpl ip :=
  destruct (rootWithIP_cases flags tmpl ip)
    as [[D [e [R E']]]|[[D [s [e [R [P E']]]]]|[pre [t [trW [v [HT [Hw E']]]]]]]].

Lemma getTmpl_prefix flags tmpl pre t :
  (devMode flags = false /\ pre = [] /\ t = tmpl)
  \/ (devMode flags = true /\ pre = [CReadFile "hello.tmpl.html"] /\
      exists s, ReadFile "hello.tmpl.html" = Ok s /\ Parse "home" s = Ok t) ->
  Forall (fun c => isResponse c = false) pre
  /\ filter isLookup pre = []
  /\ getTmpl flags tmpl = (pre, Some (Ok t)).
Proof.
  unfold getTmpl, slurpHTML.
  intros [[D [-> ->]]|[D [-> [s [R P]]]]]; rewrite D.
  - repeat split. constructor.
  - rewrite R. cbn. rewrite P. repeat split. repeat constructor.
Qed.

Lemma whoIs_trace_quiet ip trW v :
  whoIs ip = (trW, Some v) -> Forall (fun c => isResponse c = false) trW.
Proof. intros H. pose proof (whoIs_quiet ip) as Q. now rewrite H in Q. Qed.

Lemma afterLookup_responses flags t ip v :
  exists q c, afterLookup flags t ip v = (q ++ [c])%list
              /\ Forall (fun c => isResponse c = false) q
              /\ isResponse c = true
              /\ filter isLookup (afterLookup flags t ip v) = [].
Proof.
  unfold afterLookup. destruct v as [who|err]; [|destruct (devMode flags)].
  - eexists [_], _. repeat split. repeat constructor.
  - eexists [_; _], _. repeat split. repeat constructor.
  - eexists [_], _. repeat split. repeat constructor.
Qed.

(** A request is answered exactly once when [root] returns, and not at all
    when [root] ends the process. *)
Theorem root_answers_once flags tmpl r :
  (exited (root flags tmpl r) = false ->
   exists c, filter isResponse (trace (root flags tmpl r)) = [c])
  /\ (exited (root flags tmpl r) = true ->
      filter isResponse (trace (root flags tmpl r)) = []).
Proof.
  root_split flags tmpl r; rewrite E;
    try (split; [intros _; eexists; reflexivity|discriminate]).
  rootWithIP_split flags tmpl ip; rewrite E'.
  - split; [discriminate|reflexivity].
  - split; [intros _; eexists; reflexivity|discriminate].
  - split; [intros _|discriminate]. cbn [trace fst].
    destruct (getTmpl_prefix _ _ _ _ HT) as [Qp _].
    rewrite !filter_quiet by eauto using whoIs_trace_quiet.
    destruct (afterLookup_responses flags t ip v) as [q [c [-> [Qq [Rc _]]]]].
    rewrite filter_quiet by exact Qq. cbn. rewrite Rc. eauto.
Qed.

(** [root] redirects exactly the requests that came without TLS while an
    HTTPS address is configured and the requests whose URI is not "/"; a
    redirect is always a 302 and the only call made. *)
Theorem root_redirect_iff flags tmpl r :
  ((http.TLS r = None /\ httpsAddr flags <> "") \/ http.RequestURI r <> "/"
   <-> exists url, root flags tmpl r = ([CRedirect url 302], Some tt))
  /\ (forall url code,
        In (CRedirect url code) (trace (root flags tmpl r)) ->
        root flags tmpl r = ([CRedirect url 302], Some tt)).
Proof.
  assert (N : forall ip url code,
            ~ In (CRedirect url code) (trace (rootWithIP flags tmpl ip))).
  { intros ip url code H. pose proof (rootWithIP_calls flags tmpl ip) as Q.
    rewrite Forall_forall in Q. exact (Q _ H). }
  root_split flags tmpl r.
  - rewrite E. split.
    + split; [eauto|]. intros _. left. auto.
    + intros url code [H|[]]. injection H as <- <-. reflexivity.
  - rewrite E. split.
    + split; [eauto|]. intros _. now right.
    + intros url code [H|[]]. injection H as <- <-. reflexivity.
  - rewrite E. destruct Ha as [Hs U]. split.
    + split; [|intros [url H]; discriminate].
      intros [[T A]|U']; [|congruence].
      destruct Hs as [Hs|Hs]; congruence.
    + intros url code [H|[]]. discriminate.
  - rewrite E. destruct Ha as [Hs U]. split.
    + split.
      * intros [[T A]|U']; [|congruence]. destruct Hs as [Hs|Hs]; congruence.
      * intros [url H]. exfalso. apply (N ip url 302). rewrite H. now left.
    + intros url code H. exfalso. exact (N ip url code H).
Qed.

(** A request ends the process exactly when, in dev mode, it gets to the
    template and the template file cannot be read; outside dev mode no
    request does. *)
Theorem root_exits_iff flags tmpl r :
  exited (root flags tmpl r) = true <->
  devMode flags = true
  /\ http.RequestURI r = "/"
  /\ (exists ip port, hostPort (http.RemoteAddr r) ip port)
  /\ exists e, ReadFile "hello.tmpl.html" = Err e.
Proof.
  root_split flags tmpl r; rewrite E.
  - split; [discriminate|]. intros [D _]. apply devMode_https in D. congruence.
  - split; [discriminate|]. intros [_ [U' _]]. congruence.
  - split; [discriminate|]. intros [_ [_ [[ip [port H]] _]]]. now apply NH in H.
  - destruct Ha as [_ U]. rootWithIP_split flags tmpl ip; rewrite E'.
    + split; [|reflexivity]. intros _. eauto 8.
    + split; [discriminate|]. intros [_ [_ [_ [e' R']]]]. congruence.
    + split; [discriminate|]. intros [D [_ [_ [e' R']]]].
      destruct HT as [[D' _]|[_ [_ [s [R _]]]]]; congruence.
Qed.

Lemma whoIs_lookups ip :
  (List.length (filter isLookup (trace (whoIs ip))) <= 1)%nat.
Proof.
  destruct (whoIs_cases ip) as [[e [_ E]]|[req [v [_ [E _]]]]]; rewrite E; cbn; lia.
Qed.

(** [root] asks tailscaled at most once per request, and only for the host
    of a well-formed remote address, once the request is past both
    redirects and the template is at hand. *)
Theorem root_lookup_once flags tmpl r :
  (List.length (filter isLookup (trace (root flags tmpl r))) <= 1)%nat
  /\ forall req,
       In (CDo req) (trace (root flags tmpl r)) ->
       reachesAddressExtract flags r
       /\ exists ip port,
            hostPort (http.RemoteAddr r) ip port
            /\ In (CDo req) (trace (whoIs ip))
            /\ exists pre t, getTmpl flags tmpl = (pre, Some (Ok t)).
Proof.
  root_split flags tmpl r; rewrite E;
    try (split; [cbn; lia|intros req [H|[]]; discriminate]).
  rootWithIP_split flags tmpl ip; rewrite E'.
  - split; [cbn; lia|]. intros req [H|[H|[]]]; discriminate.
  - split; [cbn; lia|]. intros req [H|[H|[H|[]]]]; discriminate.
  - destruct (getTmpl_prefix _ _ _ _ HT) as [_ [Lp G]].
    destruct (afterLookup_responses flags t ip v) as [q [c [_ [_ [_ La]]]]].
    cbn [trace fst]. split.
    + rewrite !filter_app, Lp, La, app_nil_r. cbn [app].
      pose proof (whoIs_lookups ip) as L. now rewrite Hw in L.
    + intros req H. split; [exact Ha|]. exists ip, port. split; [exact HP|].
      split; [|eauto]. rewrite Hw. cbn [trace fst].
      assert (F : forall l, In (CDo req) l -> In (CDo req) (filter isLookup l)).
      { intros l Hl. apply filter_In. auto. }
      apply F in H. rewrite !filter_app, Lp, La, app_nil_r in H. cbn [app] in H.
      apply filter_In in H. tauto.
Qed.

Lemma production_root flags tmpl r :
  devMode flags = false ->
  (exists c, root flags tmpl r = ([c], Some tt) /\ isErrorOrRedirect c = true)
  \/ (exists ip port trW v,
        hostPort (http.RemoteAddr r) ip port
        /\ whoIs ip = (trW, Some v)
        /\ root flags tmpl r = ((trW ++ afterLookup flags tmpl ip v)%list, Some tt)).
Proof.
  intros Dp. root_split flags tmpl r; rewrite E; try (left; eexists; split; reflexivity).
  rootWithIP_split flags tmpl ip; try congruence.
  destruct HT as [[_ [-> ->]]|[D _]]; [|congruence].
  right. exists ip, port, trW, v. auto.
Qed.

(** Outside dev mode [root] never reads the template file and never ends
    the process, and every page it renders uses the start-up template and
    shows a successful lookup of the host of the request's own remote
    address. *)
Theorem production_pages flags tmpl r :
  devMode flags = false ->
  Forall (fun c =>
            match c with
            | CReadFile _ | CFatal _ => False
            | CExecute t d =>
                t = tmpl /\
                exists port who,
                  hostPort (http.RemoteAddr r) (IP d) port
                  /\ snd (whoIs (IP d)) = Some (Ok who)
                  /\ d = whoData who (IP d)
            | _ => True
            end) (trace (root flags tmpl r)).
Proof.
  intros Dp.
  destruct (production_root flags tmpl r Dp)
    as [[c [E C]]|[ip [port [trW [v [HP [Hw E]]]]]]]; rewrite E; cbn [trace fst].
  - constructor; [|constructor]. destruct c; try discriminate; exact I.
  - apply Forall_app. split.
    + pose proof (whoIs_calls ip) as Q. rewrite Hw in Q.
      eapply Forall_impl; [|exact Q]. intros c [->|[req ->]]; exact I.
    + unfold afterLookup. destruct v as [who|err]; [|rewrite Dp; repeat constructor].
      constructor; [exact I|]. constructor; [|constructor].
      split; [reflexivity|]. exists port, who. cbn [IP whoData].
      split; [exact HP|]. split; [now rewrite Hw|reflexivity].
Qed.

(** In dev mode the package variable [tmpl] is not used: [root] does the
    same whatever its value. *)
Theorem dev_tmpl_unused flags tmpl tmpl' r :
  devMode flags = true ->
  root flags tmpl r = root flags tmpl' r.
Proof.
  intros D. unfold root, rootWithIP, getTmpl. rewrite D. reflexivity.
Qed.

(** When [root] renders a page, that is the last thing it does: nothing
    was sent to the client before, the HTML content type is set right
    before the template is executed, and [root] returns. *)
Theorem page_is_last_call flags tmpl r tm data :
  In (CExecute tm data) (trace (root flags tmpl r)) ->
  exists before,
    root flags tmpl r =
      ((before ++ [CHeaderSet "Content-Type" "text/html; charset=utf-8";
                   CExecute tm data])%list, Some tt)
    /\ Forall (fun c => isResponse c = false) before.
Proof.
  root_split flags tmpl r; rewrite E;
    try (intros [H|[]]; discriminate).
  rootWithIP_split flags tmpl ip; rewrite E'.
  - intros [H|[H|[]]]; discriminate.
  - intros [H|[H|[H|[]]]]; discriminate.
  - cbn [trace fst]. intros H.
    destruct (getTmpl_prefix _ _ _ _ HT) as [Qp _].
    pose proof (whoIs_trace_quiet _ _ _ Hw) as Qw.
    rewrite Forall_forall in Qp, Qw.
    rewrite !in_app_iff in H. destruct H as [H|[H|H]].
    + apply Qp in H. discriminate.
    + apply Qw in H. discriminate.
    + unfold afterLookup in *. destruct v as [who|err]; [|destruct (devMode flags)].
      * destruct H as [H|[H|[]]]; [discriminate|]. injection H as <- <-.
        exists (pre ++ trW)%list. rewrite <- app_assoc. split; [reflexivity|].
        apply Forall_app. rewrite !Forall_forall. auto.
      * destruct H as [H|[H|[H|[]]]]; try discriminate. injection H as <- <-.
        exists (pre ++ trW ++ [CPrintf ("warning: using fake data in dev mode due to whois lookup error: " ++ err)])%list.
        rewrite <- !app_assoc. split; [reflexivity|].
        apply Forall_app. split; [rewrite Forall_forall; auto|].
        apply Forall_app. split; [rewrite Forall_forall; auto|].
        repeat constructor.
      * destruct H as [H|[H|[]]]; discriminate.
Qed.

(** Past both redirects, [root] answers "no remote addr" exactly when the
    remote address is not a well-formed "host:port" or "[host]:port". *)
Theorem no_remote_addr_iff flags tmpl r :
  reachesAddressExtract flags r ->
  (root flags tmpl r = ([CError "no remote addr" 500], Some tt)
   <-> forall host port, ~ hostPort (http.RemoteAddr r) host port).
Proof.
  intros Ha. rewrite (root_at_address_extract _ _ _ Ha).
  destruct (net.SplitHostPort (http.RemoteAddr r)) as [[ip port]|e] eqn:S.
  - apply SplitHostPort_hostPort in S. split.
    + intros H. exfalso.
      pose proof (rootWithIP_calls flags tmpl ip) as Q. rewrite H in Q.
      cbn in Q. inversion Q as [|c l Hc _]; subst.
      destruct Hc as [_ [Hc|[_ [s [x [_ [_ Hc]]]]]]]; discriminate.
    + intros N. now apply N in S.
  - split; [|reflexivity]. intros _ host port H.
    apply hostPort_SplitHostPort in H. congruence.
Qed.

(** Every error [root] sends is a 500 with one of three bodies: "no remote
    addr", the fixed lookup message (outside dev mode only; the lookup
    error itself is logged, not sent) or, in dev mode only, "template
    error: " and the parse error. *)
Theorem root_error_forms flags tmpl r msg code :
  In (CError msg code) (trace (root flags tmpl r)) ->
  code = 500
  /\ (msg = "no remote addr"
      \/ (msg = "Your Tailscale works, but we failed to look you up."
          /\ devMode flags = false)
      \/ (devMode flags = true /\
          exists s e, ReadFile "hello.tmpl.html" = Ok s /\ Parse "home" s = Err e /\
                      msg = "template error: " ++ e)).
Proof.
  root_split flags tmpl r; rewrite E;
    try (intros [H|[]]; discriminate).
  - intros [H|[]]. injection H as <- <-. auto.
  - rootWithIP_split flags tmpl ip; rewrite E'.
    + intros [H|[H|[]]]; discriminate.
    + intros [H|[H|[H|[]]]]; try discriminate. injection H as <- <-.
      split; [reflexivity|]. right. right. split; [exact D|]. exists s, e. auto.
    + cbn [trace fst]. intros H.
      destruct (getTmpl_prefix _ _ _ _ HT) as [Qp _].
      pose proof (whoIs_trace_quiet _ _ _ Hw) as Qw.
      rewrite Forall_forall in Qp, Qw.
      rewrite !in_app_iff in H. destruct H as [H|[H|H]].
      * apply Qp in H. discriminate.
      * apply Qw in H. discriminate.
      * unfold afterLookup in H. destruct v as [who|err]; [|destruct (devMode flags) eqn:D].
        -- destruct H as [H|[H|[]]]; discriminate.
        -- destruct H as [H|[H|[H|[]]]]; discriminate.
        -- destruct H as [H|[H|[]]]; [discriminate|]. injection H as <- <-. auto.
Qed.

(** ** Properties of [main] and of the client's dialer *)

Lemma startServers_spec flags :
  (forall a, In (ListenAndServe a) (snd (startServers flags))
             <-> a = httpAddr flags /\ a <> "")
  /\ (forall a c k,
        In (ListenAndServeTLS a c k) (snd (startServers flags))
        <-> a = httpsAddr flags /\ a <> "" /\
            c = "/etc/hello/hello.ipn.dev.crt" /\ k = "/etc/hello/hello.ipn.dev.key").
Proof.
  unfold startServers.
  destruct (String.eqb_spec (httpAddr flags) "") as [H1|H1];
    destruct (String.eqb_spec (httpsAddr flags) "") as [H2|H2];
    cbn; split; intros; split; intros Hx;
    repeat match goal with
           | H : _ \/ _ |- _ => destruct H
           | H : _ /\ _ |- _ => destruct H
           | H : False |- _ => destruct H
           | H : ListenAndServe _ = ListenAndServe _ |- _ => injection H as <-
           | H : ListenAndServeTLS _ _ _ = ListenAndServeTLS _ _ _ |- _ =>
               injection H as <- <- <-
           | H : ListenAndServe _ = ListenAndServeTLS _ _ _ |- _ => discriminate H
           | H : ListenAndServeTLS _ _ _ = ListenAndServe _ |- _ => discriminate H
           end;
    subst; try congruence; auto 6.
Qed.

Lemma main_serving_servers flags embedded log tm servers :
  main flags embedded = (log, MainServing tm servers) ->
  servers = snd (startServers flags).
Proof.
  unfold main, serve.
  destruct (negb (testIP flags =? "")%string).
  - destruct (whoIs (testIP flags)) as [tr [[res|e]|]]; discriminate.
  - destruct (negb (devMode flags)).
    + destruct (embedded =? "")%string; [discriminate|].
      destruct (Parse "home" embedded); [|discriminate].
      intros H. now injection H as _ _ <-.
    + intros H. now injection H as _ _ <-.
Qed.

(** When [main] gets to serving, no test IP was given; in dev mode the
    package variable [tmpl] is left nil and the embedded template is not
    looked at; otherwise the embedded template is not empty and [tmpl] is
    its parse. *)
Theorem main_serving_template flags embedded log tm servers :
  main flags embedded = (log, MainServing tm servers) ->
  testIP flags = ""
  /\ ((devMode flags = true /\ tm = None)
      \/ (devMode flags = false /\ embedded <> "" /\
          exists t, tm = Some t /\ Parse "home" embedded = Ok t)).
Proof.
  unfold main, serve.
  destruct (testIP flags =? "")%string eqn:TI; cbn [negb].
  - apply String.eqb_eq in TI. destruct (devMode flags); cbn [negb].
    + intros H. injection H as _ <- _. auto.
    + destruct (embedded =? "")%string eqn:EM; [discriminate|].
      apply String.eqb_neq in EM.
      destruct (Parse "home" embedded) as [t|e]; [|discriminate].
      intros H. injection H as _ <- _. split; [exact TI|].
      right. eauto.
  - destruct (whoIs (testIP flags)) as [tr [[res|e]|]]; discriminate.
Qed.

(** The servers [main] starts are a plain HTTP server exactly when the HTTP
    address is not empty and a TLS server, with the fixed certificate and
    key files, exactly when the HTTPS address is not empty; with both empty
    it starts none and waits. *)
Theorem main_servers flags embedded log tm servers :
  main flags embedded = (log, MainServing tm servers) ->
  (forall a, In (ListenAndServe a) servers <-> a = httpAddr flags /\ a <> "")
  /\ (forall a c k,
        In (ListenAndServeTLS a c k) servers
        <-> a = httpsAddr flags /\ a <> "" /\
            c = "/etc/hello/hello.ipn.dev.crt" /\ k = "/etc/hello/hello.ipn.dev.key")
  /\ (servers = [] <-> httpAddr flags = "" /\ httpsAddr flags = "").
Proof.
  intros H. rewrite (main_serving_servers _ _ _ _ _ H).
  destruct (startServers_spec flags) as [S1 S2]. split; [exact S1|]. split; [exact S2|].
  unfold startServers.
  destruct (String.eqb_spec (httpAddr flags) "") as [H1|H1];
    destruct (String.eqb_spec (httpsAddr flags) "") as [H2|H2];
    cbn; split; intros Hx; try discriminate; try tauto.
Qed.

(** In dev mode without a test IP, [main] always gets to serving, whatever
    the embedded template: it parses nothing, reads no file and starts the
    plain HTTP server only. *)
Theorem main_dev_http_only flags embedded :
  devMode flags = true ->
  testIP flags = "" ->
  main flags embedded =
    ([CPrintf "Starting hello server.";
      CPrintf ("running HTTP server on " ++ httpAddr flags)],
     MainServing None [ListenAndServe (httpAddr flags)]).
Proof.
  intros D TI. unfold main, serve, startServers. rewrite TI, D.
  unfold devMode in D. apply andb_true_iff in D. destruct D as [D1 D2].
  rewrite D1, D2. reflexivity.
Qed.

(** With a test IP, [main] starts no server and touches no template: it
    does the one lookup and either prints the response and returns, or ends
    the process with the lookup's error. *)
Theorem main_test_ip flags embedded :
  testIP flags <> "" ->
  (exists res,
     snd (whoIs (testIP flags)) = Some (Ok res)
     /\ main flags embedded = (trace (whoIs (testIP flags)), MainPrinted res))
  \/ (exists e,
        snd (whoIs (testIP flags)) = Some (Err e)
        /\ main flags embedded
           = ((trace (whoIs (testIP flags)) ++ [CFatal e])%list, MainFatal)).
Proof.
  intros TI. unfold main. apply String.eqb_neq in TI. rewrite TI. cbn [negb].
  destruct (whoIs_returns (testIP flags)) as [v Hv].
  destruct (whoIs (testIP flags)) as [tr o]. cbn in Hv. subst o.
  destruct v as [res|e]; [left|right]; eexists; split; reflexivity.
Qed.

(** Outside dev mode an empty embedded template, or one that does not
    parse, keeps [main] from serving: no server is started and nothing is
    logged about starting. *)
Theorem main_refuses_bad_template flags embedded :
  testIP flags = "" ->
  devMode flags = false ->
  (embedded = "" \/ exists e, Parse "home" embedded = Err e) ->
  (snd (main flags embedded) = MainFatal \/ exists e, snd (main flags embedded) = MainPanic e)
  /\ Forall (fun c => exists msg, c = CFatal msg) (fst (main flags embedded)).
Proof.
  intros TI D B. unfold main. rewrite TI, D.
  change (negb ("" =? "")%string) with false. cbv iota. cbn [negb].
  destruct (embedded =? "")%string eqn:EM.
  - split; [now left|]. repeat constructor. eauto.
  - apply String.eqb_neq in EM. destruct B as [B|[e B]]; [congruence|].
    rewrite B. split; [right; exists e; reflexivity|constructor].
Qed.

(** What [main] sets up is what [root] uses: when [main] serves outside dev
    mode, every page [root] renders is the parse of the embedded template,
    and [root] reads no template file. *)
Theorem served_template_is_embedded flags embedded log t servers r :
  main flags embedded = (log, MainServing (Some t) servers) ->
  Parse "home" embedded = Ok t
  /\ Forall (fun c =>
               match c with
               | CReadFile _ => False
               | CExecute t' _ => t' = t
               | _ => True
               end) (trace (root flags t r)).
Proof.
  intros H.
  assert (C : devMode flags = false /\ Parse "home" embedded = Ok t).
  { revert H. unfold main, serve.
    destruct (negb (testIP flags =? "")%string).
    - destruct (whoIs (testIP flags)) as [tr [[res|e]|]]; discriminate.
    - destruct (devMode flags); cbn [negb]; [discriminate|].
      destruct (embedded =? "")%string; [discriminate|].
      destruct (Parse "home" embedded) as [t0|e]; [|discriminate].
      intros H. injection H as _ <- _. auto. }
  destruct C as [D P]. split; [exact P|].
  destruct (production_root flags t r D)
    as [[c [E C]]|[ip [port [trW [v [HP [Hw E]]]]]]]; rewrite E; cbn [trace fst].
  - constructor; [|constructor]. destruct c; try discriminate; exact I.
  - apply Forall_app. split.
    + pose proof (whoIs_calls ip) as Q. rewrite Hw in Q.
      eapply Forall_impl; [|exact Q]. intros c [->|[req ->]]; exact I.
    + unfold afterLookup. destruct v as [who|err]; [|rewrite D]; repeat constructor.
Qed.

(** When the client dials TCP it dials the loopback interface at the port
    tailscaled was found on: the address is a well-formed "host:port" that
    splits into "localhost" and the port in decimal, whatever host the
    request named. *)
Theorem DialContext_loopback network addr n a :
  DialContext network addr = DialTCP n a ->
  n = "tcp"
  /\ exists port token,
       LocalTCPPortAndToken = Ok (port, token)
       /\ a = "localhost:" ++ strconv.Itoa port
       /\ net.SplitHostPort a = Ok ("localhost", strconv.Itoa port).
Proof.
  unfold DialContext.
  destruct LocalTCPPortAndToken as [[port token]|e]; [|discriminate].
  intros H. injection H as <- <-. split; [reflexivity|].
  exists port, token. split; [reflexivity|]. split; [reflexivity|].
  apply (SplitHostPort_plain "localhost" (strconv.Itoa port)).
  1-3: cbn; intuition discriminate.
  all: apply Itoa_digits; cbn; auto.
Qed.

End MoreProperties.

(** ** The further properties at concrete inputs *)


Lemma whoIs_request_auth_witness :
  In (CDo (@setLocalAuth macWorld exampleWhoIsRequest)) (trace (@whoIs macWorld "100.2.3.4"))
  /\ http.Authorization (@setLocalAuth macWorld exampleWhoIsRequest) = Some ("", "s3cret")
  /\ exists req,
       @NewRequestWithContext macWorld "GET" (@whoIsURL macWorld "100.2.3.4") = Ok req
       /\ http.Method (@setLocalAuth macWorld exampleWhoIsRequest) = http.Method req
       /\ http.URL (@setLocalAuth macWorld exampleWhoIsRequest) = http.URL req
       /\ http.Authorization (@setLocalAuth macWorld exampleWhoIsRequest) =
          match @LocalTCPPortAndToken macWorld with
          | Ok (_, token) => Some ("", token)
          | Err _ => http.Authorization req
          end.
Proof.
  assert (H : In (CDo (@setLocalAuth macWorld exampleWhoIsRequest))
                 (trace (@whoIs macWorld "100.2.3.4"))).
  { right. left. reflexivity. }
  split; [exact H|]. split; [reflexivity|].
  exact (@whoIs_request_auth macWorld "100.2.3.4" _ H).
Defined.

Lemma production_pages_witness :
  devMode defaultFlags = false
  /\ Forall (fun c : @call prodWorld =>
               match c with
               | CReadFile _ | CFatal _ => False
               | CExecute t d =>
                   t = "<html>" /\
                   exists port who,
                     hostPort "100.2.3.4:51234" (IP d) port
                     /\ snd (@whoIs prodWorld (IP d)) = Some (Ok who)
                     /\ d = whoData who (IP d)
               | _ => True
               end)
       (trace (@root prodWorld defaultFlags "<html>"
                 (exampleRequest true "hello.ipn.dev" "/" "100.2.3.4:51234"))).
Proof.
  split; [reflexivity|].
  exact (@production_pages prodWorld defaultFlags "<html>"
           (exampleRequest true "hello.ipn.dev" "/" "100.2.3.4:51234") eq_refl).
Defined.

Lemma dev_tmpl_unused_witness :
  devMode devFlags = true
  /\ @root devWorld devFlags "<one>"
       (exampleRequest false "localhost:8080" "/" "100.2.3.4:51234")
     = @root devWorld devFlags "<other>"
         (exampleRequest false "localhost:8080" "/" "100.2.3.4:51234").
Proof.
  split; [reflexivity|].
  exact (@dev_tmpl_unused devWorld devFlags "<one>" "<other>" _ eq_refl).
Defined.

Lemma page_is_last_call_witness :
  In (@CExecute devWorld "<html>" fakeData)
     (trace (@root devWorld devFlags "<unused>"
               (exampleRequest false "localhost:8080" "/" "100.2.3.4:51234")))
  /\ exists before,
       @root devWorld devFlags "<unused>"
         (exampleRequest false "localhost:8080" "/" "100.2.3.4:51234")
       = ((before ++ [CHeaderSet "Content-Type" "text/html; charset=utf-8";
                      @CExecute devWorld "<html>" fakeData])%list, Some tt)
       /\ Forall (fun c => @isResponse devWorld c = false) before.
Proof.
  assert (H : In (@CExecute devWorld "<html>" fakeData)
                 (trace (@root devWorld devFlags "<unused>"
                           (exampleRequest false "localhost:8080" "/" "100.2.3.4:51234")))).
  { vm_compute. auto 10. }
  split; [exact H|].
  exact (@page_is_last_call devWorld devFlags "<unused>" _ _ _ H).
Defined.

Lemma no_remote_addr_iff_witness :
  reachesAddressExtract defaultFlags (exampleRequest true "hello.ipn.dev" "/" "100.2.3.4")
  /\ forall host port, ~ hostPort "100.2.3.4" host port.
Proof.
  assert (Ha : reachesAddressExtract defaultFlags
                 (exampleRequest true "hello.ipn.dev" "/" "100.2.3.4")).
  { split; [left; discriminate|reflexivity]. }
  split; [exact Ha|].
  exact (proj1 (@no_remote_addr_iff prodWorld defaultFlags "<html>" _ Ha) eq_refl).
Defined.

Lemma root_error_forms_witness :
  In (@CError prodWorldDown "Your Tailscale works, but we failed to look you up." 500)
     (trace (@root prodWorldDown defaultFlags "<html>"
               (exampleRequest true "hello.ipn.dev" "/" "100.2.3.4:51234")))
  /\ 500 = 500
  /\ ("Your Tailscale works, but we failed to look you up." = "no remote addr"
      \/ ("Your Tailscale works, but we failed to look you up."
            = "Your Tailscale works, but we failed to look you up."
          /\ devMode defaultFlags = false)
      \/ (devMode defaultFlags = true /\
          exists s e, @ReadFile prodWorldDown "hello.tmpl.html" = Ok s /\
                      @Parse prodWorldDown "home" s = Err e /\
                      "Your Tailscale works, but we failed to look you up."
                      = "template error: " ++ e)).
Proof.
  assert (H : In (@CError prodWorldDown
                    "Your Tailscale works, but we failed to look you up." 500)
                 (trace (@root prodWorldDown defaultFlags "<html>"
                           (exampleRequest true "hello.ipn.dev" "/" "100.2.3.4:51234")))).
  { vm_compute. auto 10. }
  split; [exact H|].
  exact (@root_error_forms prodWorldDown defaultFlags "<html>" _ _ _ H).
Defined.

Lemma main_serving_template_witness :
  @main prodWorld defaultFlags "<html>"
  = ([CPrintf "Starting hello server."; CPrintf "running HTTP server on :80";
      CPrintf "running HTTPS server on :443"],
     @MainServing prodWorld (Some "<html>")
       [ListenAndServe ":80";
        ListenAndServeTLS ":443" "/etc/hello/hello.ipn.dev.crt"
          "/etc/hello/hello.ipn.dev.key"])
  /\ testIP defaultFlags = ""
  /\ ((devMode defaultFlags = true /\ Some "<html>" = None)
      \/ (devMode defaultFlags = false /\ "<html>" <> "" /\
          exists t, Some "<html>" = Some t /\ @Parse prodWorld "home" "<html>" = Ok t)).
Proof.
  split; [reflexivity|].
  exact (@main_serving_template prodWorld defaultFlags "<html>" _ _ _ eq_refl).
Defined.

Lemma main_servers_witness :
  (forall a,
     In (ListenAndServe a)
        [ListenAndServe ":80";
         ListenAndServeTLS ":443" "/etc/hello/hello.ipn.dev.crt"
           "/etc/hello/hello.ipn.dev.key"]
     <-> a = httpAddr defaultFlags /\ a <> "")
  /\ (forall a c k,
        In (ListenAndServeTLS a c k)
           [ListenAndServe ":80";
            ListenAndServeTLS ":443" "/etc/hello/hello.ipn.dev.crt"
              "/etc/hello/hello.ipn.dev.key"]
        <-> a = httpsAddr defaultFlags /\ a <> "" /\
            c = "/etc/hello/hello.ipn.dev.crt" /\ k = "/etc/hello/hello.ipn.dev.key")
  /\ ([ListenAndServe ":80";
       ListenAndServeTLS ":443" "/etc/hello/hello.ipn.dev.crt"
         "/etc/hello/hello.ipn.dev.key"] = []
      <-> httpAddr defaultFlags = "" /\ httpsAddr defaultFlags = "").
Proof.
  exact (@main_servers prodWorld defaultFlags "<html>" _ _ _ eq_refl).
Defined.

Lemma main_dev_http_only_witness :
  devMode devFlags = true
  /\ @main devWorld devFlags ""
     = ([CPrintf "Starting hello server."; CPrintf "running HTTP server on :8080"],
        @MainServing devWorld None [ListenAndServe ":8080"]).
Proof.
  split; [reflexivity|].
  exact (@main_dev_http_only devWorld devFlags "" eq_refl eq_refl).
Defined.

Lemma main_test_ip_witness :
  (exists res,
     snd (@whoIs prodWorld (testIP testIPFlags)) = Some (Ok res)
     /\ @main prodWorld testIPFlags "<html>"
        = (trace (@whoIs prodWorld (testIP testIPFlags)), MainPrinted res))
  \/ (exists e,
        snd (@whoIs prodWorld (testIP testIPFlags)) = Some (Err e)
        /\ @main prodWorld testIPFlags "<html>"
           = ((trace (@whoIs prodWorld (testIP testIPFlags)) ++ [CFatal e])%list,
              MainFatal)).
Proof.
  refine (@main_test_ip prodWorld testIPFlags "<html>" _). discriminate.
Defined.

Lemma main_refuses_bad_template_witness :
  (snd (@main prodWorld defaultFlags "") = MainFatal
   \/ exists e, snd (@main prodWorld defaultFlags "") = MainPanic e)
  /\ Forall (fun c => exists msg, c = CFatal msg) (fst (@main prodWorld defaultFlags "")).
Proof.
  exact (@main_refuses_bad_template prodWorld defaultFlags "" eq_refl eq_refl
           (or_introl eq_refl)).
Defined.

Lemma served_template_is_embedded_witness :
  @Parse prodWorld "home" "<html>" = Ok "<html>"
  /\ Forall (fun c : @call prodWorld =>
               match c with
               | CReadFile _ => False
               | CExecute t' _ => t' = "<html>"
               | _ => True
               end)
       (trace (@root prodWorld defaultFlags "<html>"
                 (exampleRequest true "hello.ipn.dev" "/" "100.2.3.4:51234"))).
Proof.
  exact (@served_template_is_embedded prodWorld defaultFlags "<html>" _ "<html>" _
           (exampleRequest true "hello.ipn.dev" "/" "100.2.3.4:51234") eq_refl).
Defined.

Lemma DialContext_loopback_witness :
  @DialContext macWorld "tcp" "local-tailscaled.sock:80" = DialTCP "tcp" "localhost:41641"
  /\ net.SplitHostPort "localhost:41641" = Ok ("localhost", "41641").
Proof.
  split; [reflexivity|].
  destruct (@DialContext_loopback macWorld "tcp" "local-tailscaled.sock:80"
              "tcp" "localhost:41641" eq_refl) as [_ [port [token [L [_ S]]]]].
  injection L as <- _. exact S.
Defined.
